(** * Places search route: aggregation loop, spreadsheet rows and request handler

    A shallow embedding of [src/app/api/search-places/route.ts].

    The route talks to three upstream endpoints (geocode, nearby search,
    place details), sleeps between pages and logs.  Those effects are kept
    as the nodes of a finite interaction tree ([Prog]); the pure parts of the
    code (URL construction, merging of detail fields, the spreadsheet rows,
    the handler's decisions) are ordinary functions.  Running a tree against
    an upstream yields the list of calls that were issued and the outcome.

    Conventions.
    - A JavaScript string is a [string] holding its UTF-8 bytes.  A string
      with a lone surrogate has no UTF-8 form: where one can reach the code
      (a parsed JSON value, a form field) it has a constructor of its own
      ([JIllFormed], [IllFormed]).
    - An argument of [encodeURIComponent] is a [Component]: the text the
      builtin escapes, or what it throws instead (the coercion of the
      argument to a string can throw, and so does a lone surrogate).
    - A JavaScript number is a binary64 [float].
    - [Number_toString] (the rendering of a number inside a template
      literal) is a parameter of the development.
    - The detail lookups of a page are issued in record order by
      [Array.prototype.map] and their results are collected by index by
      [Promise.all]; the model runs them one after the other in that order.
      No statement below depends on how their answers interleave. *)

From Stdlib Require Import List String Ascii ZArith Arith Bool Lia PrimFloat DecimalString.
Import ListNotations.
Local Open Scope string_scope.

Set Implicit Arguments.

(** ** JavaScript values and operators used by the route *)

Module JS.

(** A thrown value: an [Error] instance carrying its [message], or
    anything else. *)
Inductive Thrown : Type :=
| Error (message : string)
| NotAnError (description : string).

(** A settled promise. *)
Inductive Settled (A : Type) : Type :=
| Resolved (a : A)
| Rejected (e : Thrown).
Arguments Rejected {A} e.

(** Parsed JSON, as [request.json()] produces it. An object is the list
    of its own properties.  [JString] is a well-formed string; [JIllFormed]
    is a string that holds a lone surrogate (as the JSON text ["\ud800"]
    parses to), given by its bytes in generalised UTF-8. *)
#[local] Unset Elimination Schemes.
Inductive JSON : Type :=
| JNull
| JBool (b : bool)
| JNumber (f : float)
| JString (s : string)
| JIllFormed (wtf8 : string)
| JArray (items : list JSON)
| JObject (props : list (string * JSON)).
#[local] Set Elimination Schemes.

(** The text of a form field: well-formed, or holding a lone surrogate. *)
Inductive Text : Type :=
| WellFormed (s : string)
| IllFormed (wtf8 : string).
Coercion WellFormed : string >-> Text.

(** The JSON value a text is written as and parsed back to. *)
Definition json_of_text (t : Text) : JSON :=
  match t with
  | WellFormed s => JString s
  | IllFormed wtf8 => JIllFormed wtf8
  end.

(** An argument of [encodeURIComponent], by what the builtin does with it:
    it escapes [text], or it throws [e]. *)
Inductive Component : Type :=
| Escapes (text : string)
| Throws (e : Thrown).
Coercion Escapes : string >-> Component.

Definition URIError : Thrown := Error "URI malformed".

Definition TypeError_primitive : Thrown :=
  Error "Cannot convert object to primitive value".

(** What [encodeURIComponent] does with a string. *)
Definition component_of_text (t : Text) : Component :=
  match t with
  | WellFormed s => Escapes s
  | IllFormed _ => Throws URIError
  end.

(** The string holds a lone surrogate, also when it is the join of an
    array's items (the separator keeps the items apart). *)
Fixpoint ill_formed (v : JSON) : bool :=
  match v with
  | JIllFormed _ => true
  | JArray items => existsb ill_formed items
  | _ => false
  end.

(** Truthiness. *)
Definition truthy_string (s : string) : bool := negb (s =? "").

Definition truthy_opt_string (o : option string) : bool :=
  match o with
  | Some s => truthy_string s
  | None => false
  end.

Definition truthy_number (f : float) : bool :=
  negb (PrimFloat.eqb f 0%float) && negb (PrimFloat.is_nan f).

Definition truthy (v : JSON) : bool :=
  match v with
  | JNull => false
  | JBool b => b
  | JNumber f => truthy_number f
  | JString s => truthy_string s
  | JIllFormed _ => true
  | JArray _ => true
  | JObject _ => true
  end.

(** [undefined] is [None]. *)
Definition truthy_opt (o : option JSON) : bool :=
  match o with
  | Some v => truthy v
  | None => false
  end.

(** [a || d] on strings and on optional strings. *)
Definition or_string (a d : string) : string :=
  if truthy_string a then a else d.

Definition or_opt_string (a : option string) (d : string) : string :=
  match a with
  | Some s => or_string s d
  | None => d
  end.

(** Property read [o.key] on a parsed JSON value other than [null]. *)
Fixpoint assoc (key : string) (props : list (string * JSON)) : option JSON :=
  match props with
  | [] => None
  | (k, v) :: rest => if k =? key then Some v else assoc key rest
  end.

Definition get (v : JSON) (key : string) : option JSON :=
  match v with
  | JObject props => assoc key props
  | _ => None
  end.

(** [Array.prototype.join]. *)
Fixpoint join (sep : string) (l : list string) : string :=
  match l with
  | [] => ""
  | [x] => x
  | x :: rest => x ++ sep ++ join sep rest
  end.

(** The strings of a list of outcomes, or the first error, left to
    right. *)
Fixpoint all_resolved {A} (l : list (Settled A)) : Settled (list A) :=
  match l with
  | [] => Resolved []
  | Rejected e :: _ => Rejected e
  | Resolved a :: rest =>
      match all_resolved rest with
      | Resolved l' => Resolved (a :: l')
      | Rejected e => Rejected e
      end
  end.

(** [Array.prototype.includes] on strings. *)
Definition includes (l : list string) (x : string) : bool :=
  existsb (String.eqb x) l.

(** [s.replace(/_/g, " ")]. *)
Fixpoint replace_underscores (s : string) : string :=
  match s with
  | EmptyString => EmptyString
  | String c rest =>
      String (if Ascii.eqb c "_"%char then " "%char else c) (replace_underscores rest)
  end.

(** [encodeURIComponent] on the text of a [Component] that escapes: every
    byte is percent-encoded except the unreserved characters
    [A-Z a-z 0-9 - _ . ! ~ * ' ( )].  The cases in which the builtin throws
    are those of [Throws], raised where the code calls it. *)
Definition unreserved (c : ascii) : bool :=
  let n := nat_of_ascii c in
  (Nat.leb 65 n && Nat.leb n 90) || (Nat.leb 97 n && Nat.leb n 122) ||
  (Nat.leb 48 n && Nat.leb n 57) ||
  existsb (Ascii.eqb c)
    ["-"; "_"; "."; "!"; "~"; "*"; "'"; "("; ")"]%char.

Definition hex_digit (n : nat) : ascii :=
  nth n (list_ascii_of_string "0123456789ABCDEF") "0"%char.

Definition percent_encode (c : ascii) : string :=
  let n := nat_of_ascii c in
  String "%" (String (hex_digit (n / 16)) (String (hex_digit (n mod 16)) EmptyString)).

Fixpoint encodeURIComponent (s : string) : string :=
  match s with
  | EmptyString => EmptyString
  | String c rest =>
      (if unreserved c then String c EmptyString else percent_encode c)
        ++ encodeURIComponent rest
  end.

(** [hay.includes(needle)] on strings. *)
Fixpoint contains (needle hay : string) : bool :=
  prefix needle hay ||
  match hay with
  | EmptyString => false
  | String _ rest => contains needle rest
  end.

(** [n.toString()] for an array length. *)
Definition length_toString (n : nat) : string :=
  NilZero.string_of_uint (Nat.to_uint n).

End JS.
Import JS.

(** ** Data model *)

(** The geocoding response, as [searchPlaces] reads it. *)
Module Geocode.
Record LatLng := { lat : float; lng : float }.
Record Geometry := { location : LatLng }.
Record Result := { geometry : Geometry }.
Record Response := { status : string; results : list Result }.
End Geocode.

(** [PlacesSearchResponse]. *)
Module Search.
Record Item := {
  place_id : string;
  name : string;
  vicinity : string;
  rating : option float;
  user_ratings_total : option float;
  types : list string
}.
Record Response := {
  results : list Item;
  next_page_token : option string;
  status : string
}.
End Search.

(** [PlaceDetailsResponse]. *)
Module Details.
Record Result := {
  website : option string;
  formatted_phone_number : option string;
  formatted_address : string
}.
Record Response := { result : Result; status : string }.
End Details.

(** [PlaceSearchResult]. *)
Module Place.
Record t := {
  place_id : string;
  name : string;
  vicinity : string;
  rating : option float;
  user_ratings_total : option float;
  types : list string;
  website : option string;
  formatted_phone_number : option string;
  formatted_address : option string
}.

(** [{ ...place, website, formatted_phone_number, formatted_address }]. *)
Definition spread (place : Search.Item) (w p a : string) : t :=
  {| place_id := Search.place_id place;
     name := Search.name place;
     vicinity := Search.vicinity place;
     rating := Search.rating place;
     user_ratings_total := Search.user_ratings_total place;
     types := Search.types place;
     website := Some w;
     formatted_phone_number := Some p;
     formatted_address := Some a |}.

(** The search record a place was built from. *)
Definition item (p : t) : Search.Item :=
  {| Search.place_id := place_id p;
     Search.name := name p;
     Search.vicinity := vicinity p;
     Search.rating := rating p;
     Search.user_ratings_total := user_ratings_total p;
     Search.types := types p |}.
End Place.

(** ** Effects: upstream calls, the page delay and the log *)

Inductive Event : Type :=
| GeocodeGet (url : string)
| NearbySearchGet (url : string)
| PlaceDetailsGet (url : string)
| SetTimeout (ms : Z)
| ConsoleError (msg : string) (error : Thrown).

Definition Answer (e : Event) : Type :=
  match e with
  | GeocodeGet _ => Settled Geocode.Response
  | NearbySearchGet _ => Settled Search.Response
  | PlaceDetailsGet _ => Settled Details.Response
  | SetTimeout _ => unit
  | ConsoleError _ _ => unit
  end.

(** An async function body: it returns, throws, or performs an effect and
    goes on with the answer.  [OutOfFuel] marks a loop cut short by the
    model's bound; [getAllPlaces_total] shows it is never reached. *)
Inductive Prog (A : Type) : Type :=
| Ret (a : A)
| Throw (e : Thrown)
| OutOfFuel
| Vis (e : Event) (k : Answer e -> Prog A).
Arguments Throw {A} e.
Arguments OutOfFuel {A}.

Fixpoint bind {A B} (p : Prog A) (f : A -> Prog B) : Prog B :=
  match p with
  | Ret a => f a
  | Throw e => Throw e
  | OutOfFuel => OutOfFuel
  | Vis e k => Vis e (fun x => bind (k x) f)
  end.

(** [try { p } catch (error) { h error }]. *)
Fixpoint try_catch {A} (p : Prog A) (h : Thrown -> Prog A) : Prog A :=
  match p with
  | Ret a => Ret a
  | Throw e => h e
  | OutOfFuel => OutOfFuel
  | Vis e k => Vis e (fun x => try_catch (k x) h)
  end.

Declare Scope prog_scope.
Delimit Scope prog_scope with prog.
Notation "x <- p ;; q" := (bind p (fun x => q))
  (at level 61, p at next level, right associativity) : prog_scope.
Notation "p ;; q" := (bind p (fun _ => q))
  (at level 61, right associativity) : prog_scope.
Local Open Scope prog_scope.

(** [await] of a promise: a rejection is thrown. *)
Definition await {A} (r : Settled A) : Prog A :=
  match r with
  | Resolved a => Ret a
  | Rejected e => Throw e
  end.

Definition axios_get_geocode (url : string) : Prog Geocode.Response :=
  Vis (GeocodeGet url) (fun r => await r).

Definition axios_get_nearbysearch (url : string) : Prog Search.Response :=
  Vis (NearbySearchGet url) (fun r => await r).

Definition axios_get_details (url : string) : Prog Details.Response :=
  Vis (PlaceDetailsGet url) (fun r => await r).

Definition sleep (ms : Z) : Prog unit :=
  Vis (SetTimeout ms) (fun _ => Ret tt).

Definition console_error (msg : string) (error : Thrown) : Prog unit :=
  Vis (ConsoleError msg error) (fun _ => Ret tt).

(** [Promise.all], in list order. *)
Fixpoint Promise_all {A} (ps : list (Prog A)) : Prog (list A) :=
  match ps with
  | [] => Ret []
  | p :: rest =>
      x <- p ;;
      xs <- Promise_all rest ;;
      Ret (x :: xs)
  end.

(** ** Running a program against an upstream *)

Inductive Outcome (A : Type) : Type :=
| Returned (a : A)
| Threw (e : Thrown)
| Diverged.
Arguments Threw {A} e.
Arguments Diverged {A}.

Record Run (St A : Type) := {
  trace : list Event;
  outcome : Outcome A;
  final : St
}.

Section Running.
Context {St : Type}.
(** The upstream may answer differently over time: it has a state. *)
Variable respond : forall e : Event, St -> Answer e * St.

Fixpoint run {A} (p : Prog A) (st : St) : Run St A :=
  match p with
  | Ret a => {| trace := []; outcome := Returned a; final := st |}
  | Throw e => {| trace := []; outcome := Threw e; final := st |}
  | OutOfFuel => {| trace := []; outcome := Diverged; final := st |}
  | Vis e k =>
      let (x, st') := respond e st in
      let r := run (k x) st' in
      {| trace := e :: trace r; outcome := outcome r; final := final r |}
  end.
End Running.

(** An upstream that answers each URL the same way every time. *)
Record Upstream := {
  geocode_api : string -> Settled Geocode.Response;
  nearbysearch_api : string -> Settled Search.Response;
  details_api : string -> Settled Details.Response
}.

Definition answer (u : Upstream) (e : Event) (st : unit) : Answer e * unit :=
  (match e as e0 return Answer e0 with
   | GeocodeGet url => geocode_api u url
   | NearbySearchGet url => nearbysearch_api u url
   | PlaceDetailsGet url => details_api u url
   | SetTimeout _ => tt
   | ConsoleError _ _ => tt
   end, st).

Definition exec {A} (u : Upstream) (p : Prog A) : Run unit A :=
  run (answer u) p tt.

(** Calls in a trace. *)
Definition is_geocode (e : Event) : bool :=
  match e with GeocodeGet _ => true | _ => false end.

Definition is_nearbysearch (e : Event) : bool :=
  match e with NearbySearchGet _ => true | _ => false end.

Definition is_details (e : Event) : bool :=
  match e with PlaceDetailsGet _ => true | _ => false end.

Definition is_network (e : Event) : bool :=
  is_geocode e || is_nearbysearch e || is_details e.

Definition count (f : Event -> bool) (t : list Event) : nat :=
  List.length (filter f t).

(** A run in which every page search was preceded by its own geocoding
    call: as many geocoding calls as page searches, or one more when the run
    stopped between the two. *)
Definition geocoded_per_search {St A} (r : Run St A) : Prop :=
  count is_nearbysearch (trace r) <= count is_geocode (trace r)
  /\ count is_geocode (trace r) <= count is_nearbysearch (trace r) + 1
  /\ (forall a, outcome r = Returned a ->
       count is_geocode (trace r) = count is_nearbysearch (trace r)).

(** Properties of every path through a program, whatever the answers. *)

(** At most [n] of the calls on any path satisfy [f]. *)
Fixpoint calls_at_most (f : Event -> bool) (n : nat) {A} (p : Prog A) : Prop :=
  match p with
  | Vis e k =>
      if f e then
        match n with
        | O => False
        | S n' => forall x, calls_at_most f n' (k x)
        end
      else forall x, calls_at_most f n (k x)
  | _ => True
  end.

(** No path ends in [OutOfFuel]. *)
Fixpoint terminates {A} (p : Prog A) : Prop :=
  match p with
  | OutOfFuel => False
  | Vis e k => forall x, terminates (k x)
  | _ => True
  end.

(** No path throws. *)
Fixpoint never_throws {A} (p : Prog A) : Prop :=
  match p with
  | Throw _ => False
  | Vis e k => forall x, never_throws (k x)
  | _ => True
  end.

(** ** The spreadsheet *)

Inductive Cell : Type :=
| CellNumber (f : float)
| CellString (s : string)
| CellUndefined.

Module Row.
Record t := {
  name : Cell;
  address : Cell;
  rating : Cell;
  ratings_count : Cell;
  has_website : Cell;
  website : Cell;
  phone : Cell;
  business_type : Cell
}.
End Row.

Record Column := { header : string; key : string; width : Z }.

(** The workbook holds one worksheet; [rows] are the data rows below the
    header row. *)
Record Worksheet := {
  sheet_name : string;
  columns : list Column;
  header_font_bold : bool;
  header_fill_argb : string;
  rows : list Row.t;
  rating_numFmt : string;
  autoFilter : (Z * Z) * (Z * Z);
  frozen_ySplit : Z
}.

(** The buffer written by [workbook.xlsx.writeBuffer()] is identified with
    the workbook it serialises. *)
Definition Buffer : Type := Worksheet.

(** ** The handler's request and response *)

Record NextRequest := { json : Settled JSON }.

Inductive NextResponse : Type :=
| NextResponse_json (message : string) (status : Z)
| NextResponse_new (body : Buffer) (status : Z) (headers : list (string * string)).

Definition response_status (r : NextResponse) : Z :=
  match r with
  | NextResponse_json _ s => s
  | NextResponse_new _ s _ => s
  end.

(** ** The search form's state and the responses it fetches *)

Module Form.
Record Data := { serviceType : Text; location : Text }.

(** The four pieces of state of the component. *)
Record State := {
  isLoading : bool;
  error : option string;
  downloadUrl : option string;
  resultsCount : option float
}.
End Form.

(** A blob is identified with its bytes. *)
Definition Blob : Type := string.

Module Fetch.
(** The argument of [fetch]; [body] is the value given to
    [JSON.stringify]. *)
Record Request := {
  url : string;
  method : string;
  headers : list (string * string);
  body : JSON
}.

(** The response, with the outcomes of [response.json()] and
    [response.blob()] and the function [response.headers.get]. *)
Record Response := {
  ok : bool;
  json : Settled JSON;
  blob : Settled Blob;
  headers_get : string -> option string
}.
End Fetch.

(** ** The route *)

Section Route.

(** The rendering of a number in a template literal. *)
Variable Number_toString : float -> string.

(** String coercion of a parsed JSON value.  An object with an own
    [toString] property (never callable in parsed JSON) cannot be
    converted: the coercion throws; so does that of an array holding one. *)
Fixpoint ToString (v : JSON) : Settled string :=
  match v with
  | JNull => Resolved "null"
  | JBool true => Resolved "true"
  | JBool false => Resolved "false"
  | JNumber f => Resolved (Number_toString f)
  | JString s => Resolved s
  | JIllFormed wtf8 => Resolved wtf8
  | JArray items =>
      match all_resolved
              (map (fun x => match x with JNull => Resolved "" | _ => ToString x end)
                 items) with
      | Resolved texts => Resolved (join "," texts)
      | Rejected e => Rejected e
      end
  | JObject props =>
      match assoc "toString" props with
      | Some _ => Rejected TypeError_primitive
      | None => Resolved "[object Object]"
      end
  end.

(** [encodeURIComponent(c)], where the code calls it: the text to escape,
    or the builtin's error. *)
Definition uri_component (c : Component) : Prog string :=
  match c with
  | Escapes text => Ret text
  | Throws e => Throw e
  end.

Definition details_url (placeId apiKey : string) : string :=
  "https://maps.googleapis.com/maps/api/place/details/json?place_id=" ++ placeId
  ++ "&fields=website,formatted_phone_number,formatted_address&key=" ++ apiKey.

Definition getPlaceDetails (placeId apiKey : string) : Prog Details.Response :=
  axios_get_details (details_url placeId apiKey).

Definition geocode_url (location apiKey : string) : string :=
  "https://maps.googleapis.com/maps/api/geocode/json?address="
  ++ encodeURIComponent location ++ "&key=" ++ apiKey.

Definition nearby_url (lat lng : float) (serviceType apiKey : string) : string :=
  "https://maps.googleapis.com/maps/api/place/nearbysearch/json?location="
  ++ Number_toString lat ++ "," ++ Number_toString lng
  ++ "&radius=5000&keyword=" ++ encodeURIComponent serviceType ++ "&key=" ++ apiKey.

Definition pagetoken_url (pageToken apiKey : string) : string :=
  "https://maps.googleapis.com/maps/api/place/nearbysearch/json?pagetoken="
  ++ pageToken ++ "&key=" ++ apiKey.

(** The URL of a page request: [let url = ...; if (pageToken) { url = ... }]. *)
Definition search_url (lat lng : float) (serviceType apiKey : string)
    (pageToken : option string) : string :=
  let url := nearby_url lat lng serviceType apiKey in
  match pageToken with
  | Some token => if truthy_string token then pagetoken_url token apiKey else url
  | None => url
  end.

Definition location_not_found : Thrown :=
  Error "Não foi possível encontrar a localização especificada".

(** [geocodeResponse.data.status !== "OK" || !geocodeResponse.data.results[0]] *)
Definition geocode_rejected (data : Geocode.Response) : bool :=
  negb (Geocode.status data =? "OK")
  || match nth_error (Geocode.results data) 0 with
     | Some _ => false
     | None => true
     end.

Definition searchPlaces (serviceType location : Component) (apiKey : string)
    (pageToken : option string) : Prog Search.Response :=
  address <- uri_component location ;;
  geocodeResponse <- axios_get_geocode (geocode_url address apiKey) ;;
  if geocode_rejected geocodeResponse then Throw location_not_found
  else
    match nth_error (Geocode.results geocodeResponse) 0 with
    | None => Throw (Error "Cannot read properties of undefined (reading 'geometry')")
    | Some first =>
        let lat := Geocode.lat (Geocode.location (Geocode.geometry first)) in
        let lng := Geocode.lng (Geocode.location (Geocode.geometry first)) in
        keyword <- uri_component serviceType ;;
        axios_get_nearbysearch (search_url lat lng keyword apiKey pageToken)
    end.

(** The callback mapped over a page's records. *)
Definition detailed (apiKey : string) (place : Search.Item) : Prog Place.t :=
  try_catch
    (details <- getPlaceDetails (Search.place_id place) apiKey ;;
     Ret (Place.spread place
            (or_opt_string (Details.website (Details.result details)) "")
            (or_opt_string (Details.formatted_phone_number (Details.result details)) "")
            (or_string (Details.formatted_address (Details.result details))
                       (Search.vicinity place))))
    (fun error =>
       console_error ("Erro ao buscar detalhes para " ++ Search.name place ++ ":") error ;;
       Ret (Place.spread place "" "" (Search.vicinity place))).

Definition maxPages : nat := 3.

Definition places_api_error (status : string) : Thrown :=
  Error ("Erro na API do Google Places: " ++ status).

(** The [do ... while] loop of [getAllPlaces]; [fuel] bounds the number of
    iterations of the model. *)
Fixpoint getAllPlaces_loop (fuel : nat) (serviceType location : Component)
    (apiKey : string)
    (allResults : list Place.t) (nextPageToken : option string)
    (currentPage : nat) : Prog (list Place.t) :=
  match fuel with
  | O => OutOfFuel
  | S fuel' =>
      (if truthy_opt_string nextPageToken then sleep 2000 else Ret tt) ;;
      response <- searchPlaces serviceType location apiKey nextPageToken ;;
      if negb (Search.status response =? "OK")
      then Throw (places_api_error (Search.status response))
      else
        detailedResults <- Promise_all (map (detailed apiKey) (Search.results response)) ;;
        let allResults := (allResults ++ detailedResults)%list in
        let nextPageToken := Search.next_page_token response in
        let currentPage := S currentPage in
        if truthy_opt_string nextPageToken && (currentPage <? maxPages)%nat
        then getAllPlaces_loop fuel' serviceType location apiKey
               allResults nextPageToken currentPage
        else Ret allResults
  end.

Definition getAllPlaces (serviceType location : Component) (apiKey : string)
    : Prog (list Place.t) :=
  getAllPlaces_loop maxPages serviceType location apiKey [] None 0.

(** [generateExcel] *)
Definition generic_types : list string := ["point_of_interest"; "establishment"].

Definition businessType (types : list string) : string :=
  join ", "
    (map replace_underscores
       (filter (fun type => negb (includes generic_types type)) types)).

Definition addRow (place : Place.t) : Row.t :=
  {| Row.name := CellString (Place.name place);
     Row.address :=
       match Place.formatted_address place with
       | Some a => CellString a
       | None => CellUndefined
       end;
     Row.rating :=
       match Place.rating place with
       | Some r => if truthy_number r then CellNumber r else CellString "N/A"
       | None => CellString "N/A"
       end;
     Row.ratings_count :=
       match Place.user_ratings_total place with
       | Some n => if truthy_number n then CellNumber n else CellNumber 0
       | None => CellNumber 0
       end;
     Row.has_website :=
       CellString (if truthy_opt_string (Place.website place) then "Sim" else "Não");
     Row.website := CellString (or_opt_string (Place.website place) "N/A");
     Row.phone := CellString (or_opt_string (Place.formatted_phone_number place) "N/A");
     Row.business_type := CellString (or_string (businessType (Place.types place)) "N/A") |}.

Definition generateExcel (places : list Place.t) : Buffer :=
  {| sheet_name := "Estabelecimentos";
     columns :=
       [ {| header := "Nome"; key := "name"; width := 30 |};
         {| header := "Endereço"; key := "address"; width := 40 |};
         {| header := "Avaliação"; key := "rating"; width := 12 |};
         {| header := "Número de Avaliações"; key := "ratings_count"; width := 20 |};
         {| header := "Possui Site"; key := "has_website"; width := 12 |};
         {| header := "Site"; key := "website"; width := 40 |};
         {| header := "Telefone"; key := "phone"; width := 20 |};
         {| header := "Tipo de Negócio"; key := "business_type"; width := 30 |} ];
     header_font_bold := true;
     header_fill_argb := "FFE0E0E0";
     rows := map addRow places;
     rating_numFmt := "0.0";
     autoFilter := ((1, 1), (1, 8))%Z;
     frozen_ySplit := 1 |}.

(** [POST] *)
Definition misconfigured : NextResponse :=
  NextResponse_json "Chave da API do Google Maps não configurada" 500.

Definition invalid_input : NextResponse :=
  NextResponse_json "Tipo de serviço e localização são obrigatórios" 400.

Definition no_results : NextResponse :=
  NextResponse_json "Nenhum estabelecimento encontrado para os critérios informados" 404.

(** [error instanceof Error ? error.message : "..."] *)
Definition errorMessage (error : Thrown) : string :=
  match error with
  | Error message => message
  | NotAnError _ => "Ocorreu um erro ao processar a requisição"
  end.

(** [const { serviceType, location } = body] *)
Definition destructure (body : JSON) : Prog (option JSON * option JSON) :=
  match body with
  | JNull =>
      Throw (Error "Cannot destructure property 'serviceType' of 'body' as it is null.")
  | _ => Ret (get body "serviceType", get body "location")
  end.

(** A value passed on to [encodeURIComponent], by what the builtin does
    with it: it throws what the coercion to a string throws, it throws
    [URIError] on a lone surrogate, and escapes the string otherwise
    ([undefined] renders as its name). *)
Definition ToString_opt (v : option JSON) : Component :=
  match v with
  | Some v =>
      match ToString v with
      | Rejected e => Throws e
      | Resolved text => if ill_formed v then Throws URIError else Escapes text
      end
  | None => Escapes "undefined"
  end.

Definition String_opt (v : option string) : string :=
  match v with
  | Some s => s
  | None => "undefined"
  end.

Definition success (places : list Place.t) : NextResponse :=
  let excelBuffer := generateExcel places in
  NextResponse_new excelBuffer 200
    [ ("Content-Type",
       "application/vnd.openxmlformats-officedocument.spreadsheetml.sheet");
      ("Content-Disposition", "attachment; filename=estabelecimentos.xlsx");
      ("X-Results-Count", length_toString (List.length places)) ].

Definition POST (GOOGLE_MAPS_API_KEY : option string) (request : NextRequest)
    : Prog NextResponse :=
  try_catch
    (let apiKey := GOOGLE_MAPS_API_KEY in
     if negb (truthy_opt_string apiKey) then Ret misconfigured
     else
       body <- await (json request) ;;
       fields <- destructure body ;;
       let (serviceType, location) := fields in
       if negb (truthy_opt serviceType) || negb (truthy_opt location)
       then Ret invalid_input
       else
         places <- getAllPlaces (ToString_opt serviceType) (ToString_opt location)
                     (String_opt apiKey) ;;
         if (List.length places =? 0)%nat then Ret no_results
         else Ret (success places))
    (fun error =>
       console_error "Erro ao processar a requisição:" error ;;
       Ret (NextResponse_json (errorMessage error) 500)).

(** *** Upstreams that serve a given sequence of pages *)

(** What the page callback yields for a record on a fixed upstream. *)
Definition enriched (u : Upstream) (apiKey : string) (place : Search.Item) : Place.t :=
  match details_api u (details_url (Search.place_id place) apiKey) with
  | Resolved details =>
      Place.spread place
        (or_opt_string (Details.website (Details.result details)) "")
        (or_opt_string (Details.formatted_phone_number (Details.result details)) "")
        (or_string (Details.formatted_address (Details.result details))
                   (Search.vicinity place))
  | Rejected _ => Place.spread place "" "" (Search.vicinity place)
  end.

(** The upstream answers [url] with the first page, and the token of each
    page leads to the next one. *)
Fixpoint served (u : Upstream) (apiKey url : string) (pages : list Search.Response)
    : Prop :=
  match pages with
  | [] => True
  | page :: rest =>
      nearbysearch_api u url = Resolved page /\
      match rest with
      | [] => True
      | _ :: _ =>
          exists token,
            Search.next_page_token page = Some token /\
            truthy_string token = true /\
            served u apiKey (pagetoken_url token apiKey) rest
      end
  end.

(** The pages the loop obtains from a fixed upstream: its control flow
    without the detail lookups. *)
Fixpoint pages_fetched (u : Upstream) (fuel : nat)
    (serviceType location : Component) (apiKey : string)
    (nextPageToken : option string)
    (currentPage : nat) : Outcome (list Search.Response) :=
  match fuel with
  | O => Diverged
  | S fuel' =>
      match outcome (exec u (searchPlaces serviceType location apiKey nextPageToken)) with
      | Returned response =>
          if negb (Search.status response =? "OK")
          then Threw (places_api_error (Search.status response))
          else if truthy_opt_string (Search.next_page_token response)
                  && (S currentPage <? maxPages)%nat
          then
            match pages_fetched u fuel' serviceType location apiKey
                    (Search.next_page_token response) (S currentPage) with
            | Returned rest => Returned (response :: rest)
            | Threw e => Threw e
            | Diverged => Diverged
            end
          else Returned [response]
      | Threw e => Threw e
      | Diverged => Diverged
      end
  end.

(** The token carried by the last page. *)
Definition last_token (pages : list Search.Response) : option string :=
  last (map Search.next_page_token pages) None.

(** The same upstream with other answers to detail lookups. *)
Definition with_details (u : Upstream)
    (d : string -> Settled Details.Response) : Upstream :=
  {| geocode_api := geocode_api u;
     nearbysearch_api := nearbysearch_api u;
     details_api := d |}.

(** The default fields of a record whose detail lookup failed. *)
Definition defaulted (p : Place.t) : Prop :=
  Place.website p = Some "" /\
  Place.formatted_phone_number p = Some "" /\
  Place.formatted_address p = Some (Place.vicinity p).

(** *** Sample requests and upstreams *)

(** The rendering of the coordinates used below, both zero. *)
Definition decimal_zero (f : float) : string := "0".

Definition geocoded_origin : Geocode.Response :=
  {| Geocode.status := "OK";
     Geocode.results :=
       [ {| Geocode.geometry :=
              {| Geocode.location := {| Geocode.lat := 0; Geocode.lng := 0 |} |} |} ] |}.

Definition cafe (id : string) : Search.Item :=
  {| Search.place_id := id;
     Search.name := "Café " ++ id;
     Search.vicinity := "Rua Augusta";
     Search.rating := Some 4.5%float;
     Search.user_ratings_total := Some 10%float;
     Search.types := ["cafe"; "food"; "point_of_interest"; "establishment"] |}.

Definition page_one : Search.Response :=
  {| Search.results := [cafe "a"; cafe "b"];
     Search.next_page_token := Some "t2";
     Search.status := "OK" |}.

Definition page_two : Search.Response :=
  {| Search.results := [cafe "c"; cafe "d"];
     Search.next_page_token := None;
     Search.status := "OK" |}.

Definition cafe_details : Details.Response :=
  {| Details.result :=
       {| Details.website := Some "https://cafe.example";
          Details.formatted_phone_number := None;
          Details.formatted_address := "Rua Augusta 1, Lisboa" |};
     Details.status := "OK" |}.

(** Two pages of two records; every detail lookup succeeds. *)
Definition two_pages : Upstream :=
  {| geocode_api := fun _ => Resolved geocoded_origin;
     nearbysearch_api :=
       fun url =>
         if url =? pagetoken_url "t2" "key" then Resolved page_two
         else Resolved page_one;
     details_api := fun _ => Resolved cafe_details |}.

(** The same search, on a location the geocoder does not know. *)
Definition unknown_location : Upstream :=
  {| geocode_api :=
       fun _ => Resolved {| Geocode.status := "ZERO_RESULTS"; Geocode.results := [] |};
     nearbysearch_api := nearbysearch_api two_pages;
     details_api := details_api two_pages |}.

(** Every page carries a token. *)
Definition endless : Upstream :=
  {| geocode_api := fun _ => Resolved geocoded_origin;
     nearbysearch_api := fun _ => Resolved page_one;
     details_api := fun _ => Resolved cafe_details |}.

(** A successful search without records. *)
Definition nothing_found : Upstream :=
  {| geocode_api := fun _ => Resolved geocoded_origin;
     nearbysearch_api :=
       fun _ => Resolved {| Search.results := [];
                            Search.next_page_token := None;
                            Search.status := "OK" |};
     details_api := fun _ => Resolved cafe_details |}.

Definition timed_out (url : string) : Settled Details.Response :=
  Rejected (Error "timeout of 1000ms exceeded").

Definition request_of (serviceType location : string) : NextRequest :=
  {| json := Resolved (JObject [ ("serviceType", JString serviceType);
                                 ("location", JString location) ]) |}.

Definition tagged (types : list string) : Place.t :=
  {| Place.place_id := "a";
     Place.name := "Café a";
     Place.vicinity := "Rua Augusta";
     Place.rating := None;
     Place.user_ratings_total := None;
     Place.types := types;
     Place.website := Some "";
     Place.formatted_phone_number := Some "";
     Place.formatted_address := Some "Rua Augusta" |}.

(** *** Further classes of calls and path properties *)

(** The call [getAllPlaces(serviceType, location, apiKey)] of the handler,
    for a parsed body. *)
Definition aggregation (body : JSON) (key : option string) : Prog (list Place.t) :=
  getAllPlaces (ToString_opt (get body "serviceType"))
    (ToString_opt (get body "location")) (String_opt key).

(** The text logged by the handler's [catch]. *)
Definition handled_log : string := "Erro ao processar a requisição:".

Definition is_delay (e : Event) : bool :=
  match e with SetTimeout _ => true | _ => false end.

(** Every call on every path satisfies [Q]. *)
Fixpoint every_call (Q : Event -> Prop) {A} (p : Prog A) : Prop :=
  match p with
  | Vis e k => Q e /\ forall x, every_call Q (k x)
  | _ => True
  end.

(** Every value returned on any path satisfies [Q]. *)
Fixpoint all_returns {A} (Q : A -> Prop) (p : Prog A) : Prop :=
  match p with
  | Ret a => Q a
  | Vis e k => forall x, all_returns Q (k x)
  | _ => True
  end.


(** The calls an aggregation for [location] with [apiKey] may issue. *)
Definition aggregation_call (location apiKey : string) (e : Event) : Prop :=
  match e with
  | GeocodeGet url => url = geocode_url location apiKey
  | NearbySearchGet _ => True
  | PlaceDetailsGet url => exists placeId, url = details_url placeId apiKey
  | SetTimeout ms => ms = 2000%Z
  | ConsoleError _ _ => True
  end.

(** The detail lookup of a place. *)
Definition lookup_of (apiKey : string) (p : Place.t) : Event :=
  PlaceDetailsGet (details_url (Place.place_id p) apiKey).

(** The value of a hexadecimal digit, to read an escape back. *)
Definition hex_value (h : ascii) : nat :=
  let n := nat_of_ascii h in
  if Nat.leb 65 n then n - 55 else n - 48.

Definition unescape (h1 h2 : ascii) : ascii :=
  ascii_of_nat (16 * hex_value h1 + hex_value h2).

(** *** The search form: [onSubmit] of [src/components/search-form.tsx] *)

Section SearchForm.

Variable fetch : Fetch.Request -> Settled Fetch.Response.
Variable createObjectURL : Blob -> string.
Variable Number_parseInt : string -> float.

Definition submit_failed : string := "Ocorreu um erro ao buscar os estabelecimentos".

Definition search_request (data : Form.Data) : Fetch.Request :=
  {| Fetch.url := "/api/search-places";
     Fetch.method := "POST";
     Fetch.headers := [("Content-Type", "application/json")];
     Fetch.body := JObject [ ("serviceType", json_of_text (Form.serviceType data));
                             ("location", json_of_text (Form.location data)) ] |}.

(** [new Error(errorData.message || "...")] *)
Definition server_error (errorData : JSON) : Thrown :=
  match errorData with
  | JNull => Error "Cannot read properties of null (reading 'message')"
  | _ =>
      match get errorData "message" with
      | Some message =>
          if truthy message then
            match ToString message with
            | Resolved text => Error text
            | Rejected err => err
            end
          else Error submit_failed
      | None => Error submit_failed
      end
  end.

(** The [try] block after the three resets, from the state [st] they
    leave: the state it reaches, or what it throws. *)
Definition submitting (data : Form.Data) (st : Form.State) : Settled Form.State :=
  match fetch (search_request data) with
  | Rejected err => Rejected err
  | Resolved response =>
      if negb (Fetch.ok response) then
        match Fetch.json response with
        | Rejected err => Rejected err
        | Resolved errorData => Rejected (server_error errorData)
        end
      else
        match Fetch.blob response with
        | Rejected err => Rejected err
        | Resolved blob =>
            let url := createObjectURL blob in
            let count := Fetch.headers_get response "X-Results-Count" in
            Resolved
              {| Form.isLoading := Form.isLoading st;
                 Form.error := Form.error st;
                 Form.downloadUrl := Some url;
                 Form.resultsCount :=
                   if truthy_opt_string count
                   then Some (Number_parseInt (String_opt count))
                   else None |}
        end
  end.

Definition onSubmit (data : Form.Data) (st : Form.State) : Form.State :=
  let st1 :=
    {| Form.isLoading := true;
       Form.error := None;
       Form.downloadUrl := None;
       Form.resultsCount := Form.resultsCount st |} in
  let st2 :=
    match submitting data st1 with
    | Resolved st' => st'
    | Rejected err =>
        {| Form.isLoading := Form.isLoading st1;
           Form.error :=
             Some (match err with
                   | Error message => message
                   | NotAnError _ => submit_failed
                   end);
           Form.downloadUrl := Form.downloadUrl st1;
           Form.resultsCount := Form.resultsCount st1 |}
    end in
  {| Form.isLoading := false;
     Form.error := Form.error st2;
     Form.downloadUrl := Form.downloadUrl st2;
     Form.resultsCount := Form.resultsCount st2 |}.

(** What the component shows: [{error && ...}] and [{downloadUrl && ...}]. *)
Definition error_alert (st : Form.State) : option string :=
  if truthy_opt_string (Form.error st) then Form.error st else None.

Definition download_alert (st : Form.State) : option string :=
  if truthy_opt_string (Form.downloadUrl st) then
    Some (match Form.resultsCount st with
          | Some n =>
              if truthy_number n
              then Number_toString n
                   ++ " estabelecimentos encontrados! Clique abaixo para baixar a planilha."
              else "Planilha gerada com sucesso! Clique abaixo para baixar."
          | None => "Planilha gerada com sucesso! Clique abaixo para baixar."
          end)
  else None.

End SearchForm.

(** A server that answers every submission with a JSON error. *)
Definition refusing (message : string) (request : Fetch.Request)
    : Settled Fetch.Response :=
  Resolved {| Fetch.ok := false;
              Fetch.json := Resolved (JObject [("message", JString message)]);
              Fetch.blob := Resolved "";
              Fetch.headers_get := fun _ => None |}.

Definition idle : Form.State :=
  {| Form.isLoading := false;
     Form.error := None;
     Form.downloadUrl := None;
     Form.resultsCount := None |}.

(** The places of the two-page search. *)
Definition two_pages_places : list Place.t :=
  map (enriched two_pages "key") [cafe "a"; cafe "b"; cafe "c"; cafe "d"].

Definition cafe_query : Form.Data :=
  {| Form.serviceType := "cafe"; Form.location := "Lisboa" |}.

(** The lone surrogate U+D800, by its three bytes. *)
Definition lone_surrogate : string :=
  String (ascii_of_nat 237) (String (ascii_of_nat 160) (String (ascii_of_nat 128) "")).

(** A query whose location is a lone surrogate, and the request that
    carries it. *)
Definition surrogate_query : Form.Data :=
  {| Form.serviceType := "cafe"; Form.location := IllFormed lone_surrogate |}.

Definition surrogate_request : NextRequest :=
  {| json := Resolved (JObject [ ("serviceType", JString "cafe");
                                 ("location", JIllFormed lone_surrogate) ]) |}.

(** A request whose location is the object [{"toString": 1}]. *)
Definition unprintable_request : NextRequest :=
  {| json := Resolved (JObject [ ("serviceType", JString "cafe");
                                 ("location", JObject [("toString", JNumber 1)]) ]) |}.

(** A request whose service type is a lone surrogate. *)
Definition surrogate_keyword_request : NextRequest :=
  {| json := Resolved (JObject [ ("serviceType", JIllFormed lone_surrogate);
                                 ("location", JString "Lisboa") ]) |}.

Definition quota_page : Search.Response :=
  {| Search.results := [];
     Search.next_page_token := None;
     Search.status := "OVER_QUERY_LIMIT" |}.

(** A first page whose status is not OK. *)
Definition over_quota : Upstream :=
  {| geocode_api := fun _ => Resolved geocoded_origin;
     nearbysearch_api :=
       fun _ => Resolved {| Search.results := [];
                            Search.next_page_token := None;
                            Search.status := "OVER_QUERY_LIMIT" |};
     details_api := fun _ => Resolved cafe_details |}.

(** ** Running programs: composition laws *)

Section Paths.
Context {St : Type}.
Variable respond : forall e : Event, St -> Answer e * St.

Lemma run_bind {A B} (p : Prog A) (f : A -> Prog B) (st : St) :
  run respond (bind p f) st =
  match outcome (run respond p st) with
  | Returned a =>
      let r := run respond (f a) (final (run respond p st)) in
      {| trace := (trace (run respond p st) ++ trace r)%list;
         outcome := outcome r;
         final := final r |}
  | Threw e =>
      {| trace := trace (run respond p st);
         outcome := Threw e;
         final := final (run respond p st) |}
  | Diverged =>
      {| trace := trace (run respond p st);
         outcome := Diverged;
         final := final (run respond p st) |}
  end.
Proof.
  revert st; induction p as [a | e | | e k IH]; intros st; simpl; try reflexivity.
  - destruct (run respond (f a) st); reflexivity.
  - destruct (respond e st) as [x st']; simpl.
    rewrite IH.
    destruct (outcome (run respond (k x) st')); reflexivity.
Qed.

Lemma run_bind_outcome {A B} (p : Prog A) (f : A -> Prog B) (st : St) :
  outcome (run respond (bind p f) st) =
  match outcome (run respond p st) with
  | Returned a => outcome (run respond (f a) (final (run respond p st)))
  | Threw e => Threw e
  | Diverged => Diverged
  end.
Proof.
  rewrite run_bind. destruct (outcome (run respond p st)); reflexivity.
Qed.

Lemma run_bind_trace {A B} (p : Prog A) (f : A -> Prog B) (st : St) :
  trace (run respond (bind p f) st) =
  match outcome (run respond p st) with
  | Returned a =>
      (trace (run respond p st)
       ++ trace (run respond (f a) (final (run respond p st))))%list
  | _ => trace (run respond p st)
  end.
Proof.
  rewrite run_bind. destruct (outcome (run respond p st)); reflexivity.
Qed.

Lemma run_try_catch {A} (p : Prog A) (h : Thrown -> Prog A) (st : St) :
  run respond (try_catch p h) st =
  match outcome (run respond p st) with
  | Returned a =>
      {| trace := trace (run respond p st);
         outcome := Returned a;
         final := final (run respond p st) |}
  | Threw e =>
      let r := run respond (h e) (final (run respond p st)) in
      {| trace := (trace (run respond p st) ++ trace r)%list;
         outcome := outcome r;
         final := final r |}
  | Diverged =>
      {| trace := trace (run respond p st);
         outcome := Diverged;
         final := final (run respond p st) |}
  end.
Proof.
  revert st; induction p as [a | e | | e k IH]; intros st; simpl; try reflexivity.
  - destruct (run respond (h e) st); reflexivity.
  - destruct (respond e st) as [x st']; simpl.
    rewrite IH.
    destruct (outcome (run respond (k x) st')); reflexivity.
Qed.

Lemma run_bind_ext {A B} (p : Prog A) (f g : A -> Prog B) (st : St) :
  (forall a st', run respond (f a) st' = run respond (g a) st') ->
  run respond (bind p f) st = run respond (bind p g) st.
Proof.
  intros H. rewrite !run_bind.
  destruct (outcome (run respond p st)); try reflexivity.
  rewrite H. reflexivity.
Qed.

Lemma calls_at_most_run (f : Event -> bool) {A} (p : Prog A) :
  forall n st, calls_at_most f n p -> count f (trace (run respond p st)) <= n.
Proof.
  unfold count.
  induction p as [a | e | | e k IH]; intros n st H; simpl; try lia.
  simpl in H.
  destruct (respond e st) as [x st']; simpl.
  destruct (f e).
  - destruct n as [| n']; [contradiction |].
    simpl. apply le_n_S. apply IH, H.
  - apply IH, H.
Qed.

Lemma terminates_run {A} (p : Prog A) :
  forall st, terminates p -> outcome (run respond p st) <> Diverged.
Proof.
  induction p as [a | e | | e k IH]; intros st H; simpl; try discriminate.
  - contradiction.
  - simpl in H. destruct (respond e st) as [x st']; simpl. apply IH, H.
Qed.

Lemma never_throws_run {A} (p : Prog A) :
  forall st e, never_throws p -> outcome (run respond p st) <> Threw e.
Proof.
  induction p as [a | e' | | e' k IH]; intros st e H; simpl; try discriminate.
  - contradiction.
  - simpl in H. destruct (respond e' st) as [x st']; simpl. apply IH, H.
Qed.

Lemma returns_run {A} (p : Prog A) (st : St) :
  terminates p -> never_throws p ->
  exists a, outcome (run respond p st) = Returned a.
Proof.
  intros Ht Hn.
  pose proof (terminates_run p st Ht) as Hd.
  destruct (outcome (run respond p st)) as [a | e |] eqn:E.
  - exists a. reflexivity.
  - exfalso. exact (never_throws_run p st Hn E).
  - contradiction.
Qed.

End Paths.

(** ** Every path: composition laws *)

Lemma calls_at_most_weaken (f : Event -> bool) {A} (p : Prog A) :
  forall n m, n <= m -> calls_at_most f n p -> calls_at_most f m p.
Proof.
  induction p as [a | e | | e k IH]; intros n m Hle H; simpl in *; auto.
  destruct (f e).
  - destruct n as [| n']; [contradiction |].
    destruct m as [| m']; [lia |].
    intros x. apply (IH x n' m'); [lia | apply H].
  - intros x. apply (IH x n m); [lia | apply H].
Qed.

Lemma calls_at_most_bind (f : Event -> bool) {A B} (p : Prog A) (g : A -> Prog B) :
  forall n m,
    calls_at_most f n p ->
    (forall a, calls_at_most f m (g a)) ->
    calls_at_most f (n + m) (bind p g).
Proof.
  induction p as [a | e | | e k IH]; intros n m Hp Hg; simpl in *; auto.
  - apply calls_at_most_weaken with (n := m); [lia | apply Hg].
  - destruct (f e).
    + destruct n as [| n']; [contradiction |].
      simpl. intros x. apply IH; [apply Hp | exact Hg].
    + intros x. apply IH; [apply Hp | exact Hg].
Qed.

Lemma calls_at_most_try_catch (f : Event -> bool) {A} (p : Prog A)
    (h : Thrown -> Prog A) :
  forall n m,
    calls_at_most f n p ->
    (forall e, calls_at_most f m (h e)) ->
    calls_at_most f (n + m) (try_catch p h).
Proof.
  induction p as [a | e | | e k IH]; intros n m Hp Hh; simpl in *; auto.
  - apply calls_at_most_weaken with (n := m); [lia | apply Hh].
  - destruct (f e).
    + destruct n as [| n']; [contradiction |].
      simpl. intros x. apply IH; [apply Hp | exact Hh].
    + intros x. apply IH; [apply Hp | exact Hh].
Qed.

Lemma terminates_bind {A B} (p : Prog A) (g : A -> Prog B) :
  terminates p -> (forall a, terminates (g a)) -> terminates (bind p g).
Proof.
  induction p as [a | e | | e k IH]; intros Hp Hg; simpl in *; auto.
Qed.

Lemma terminates_try_catch {A} (p : Prog A) (h : Thrown -> Prog A) :
  terminates p -> (forall e, terminates (h e)) -> terminates (try_catch p h).
Proof.
  induction p as [a | e | | e k IH]; intros Hp Hh; simpl in *; auto.
Qed.

Lemma never_throws_bind {A B} (p : Prog A) (g : A -> Prog B) :
  never_throws p -> (forall a, never_throws (g a)) -> never_throws (bind p g).
Proof.
  induction p as [a | e | | e k IH]; intros Hp Hg; simpl in *; auto.
Qed.

Lemma never_throws_try_catch {A} (p : Prog A) (h : Thrown -> Prog A) :
  (forall e, never_throws (h e)) -> never_throws (try_catch p h).
Proof.
  induction p as [a | e | | e k IH]; intros Hh; simpl in *; auto.
Qed.

(** ** The page callback and [Promise.all] *)

Lemma detailed_never_throws (apiKey : string) (place : Search.Item) :
  never_throws (detailed apiKey place).
Proof.
  apply never_throws_try_catch. intros e. simpl. auto.
Qed.

Lemma detailed_terminates (apiKey : string) (place : Search.Item) :
  terminates (detailed apiKey place).
Proof.
  unfold detailed. simpl. intros [d | e]; simpl; auto.
Qed.

Lemma detailed_calls (f : Event -> bool) (apiKey : string) (place : Search.Item) :
  (forall url, f (PlaceDetailsGet url) = false) ->
  (forall msg e, f (ConsoleError msg e) = false) ->
  calls_at_most f 0 (detailed apiKey place).
Proof.
  intros Hd Hc. unfold detailed. simpl. rewrite Hd.
  intros [d | e]; simpl; auto. rewrite Hc. auto.
Qed.

Lemma Promise_all_never_throws {A} (ps : list (Prog A)) :
  Forall never_throws ps -> never_throws (Promise_all ps).
Proof.
  induction 1 as [| p rest Hp _ IH]; simpl; auto.
  apply never_throws_bind; [exact Hp |].
  intros x. apply never_throws_bind; [exact IH | simpl; auto].
Qed.

Lemma Promise_all_terminates {A} (ps : list (Prog A)) :
  Forall terminates ps -> terminates (Promise_all ps).
Proof.
  induction 1 as [| p rest Hp _ IH]; simpl; auto.
  apply terminates_bind; [exact Hp |].
  intros x. apply terminates_bind; [exact IH | simpl; auto].
Qed.

Lemma Promise_all_calls (f : Event -> bool) {A} (ps : list (Prog A)) :
  Forall (calls_at_most f 0) ps -> calls_at_most f 0 (Promise_all ps).
Proof.
  induction 1 as [| p rest Hp _ IH]; simpl; auto.
  apply (calls_at_most_bind f p _ 0 0 Hp).
  intros x. apply (calls_at_most_bind f (Promise_all rest) _ 0 0 IH).
  intros xs. simpl. auto.
Qed.

(** ** Bounds on the page loop *)

(** Case analysis along the paths of [searchPlaces]. *)
Ltac search_paths :=
  unfold searchPlaces, uri_component;
  match goal with
  | |- context [bind (match ?location with Escapes _ => _ | Throws _ => _ end) _] =>
      destruct location as [address | uri]
  end; simpl; auto;
  intros [data | e]; simpl; auto;
  destruct (geocode_rejected data); simpl; auto;
  destruct (Geocode.results data) as [| first others]; simpl; auto;
  match goal with
  | |- context [match ?serviceType with Escapes _ => _ | Throws _ => _ end] =>
      destruct serviceType as [keyword | uri]
  end; simpl; auto;
  intros [page | err]; simpl; auto.

Lemma searchPlaces_nearbysearch_calls (serviceType location : Component) (apiKey : string)
    (pageToken : option string) :
  calls_at_most is_nearbysearch 1 (searchPlaces serviceType location apiKey pageToken).
Proof.
  search_paths.
Qed.

Lemma searchPlaces_geocode_calls (serviceType location : Component) (apiKey : string)
    (pageToken : option string) :
  calls_at_most is_geocode 1 (searchPlaces serviceType location apiKey pageToken).
Proof.
  search_paths.
Qed.

Lemma searchPlaces_terminates (serviceType location : Component) (apiKey : string)
    (pageToken : option string) :
  terminates (searchPlaces serviceType location apiKey pageToken).
Proof.
  search_paths.
Qed.

(** One turn of the loop. *)
Lemma getAllPlaces_loop_S (fuel : nat) (serviceType location : Component)
    (apiKey : string)
    (allResults : list Place.t) (nextPageToken : option string) (currentPage : nat) :
  getAllPlaces_loop (S fuel) serviceType location apiKey
    allResults nextPageToken currentPage =
  ((if truthy_opt_string nextPageToken then sleep 2000 else Ret tt) ;;
   response <- searchPlaces serviceType location apiKey nextPageToken ;;
   if negb (Search.status response =? "OK")
   then Throw (places_api_error (Search.status response))
   else
     detailedResults <- Promise_all (map (detailed apiKey) (Search.results response)) ;;
     if truthy_opt_string (Search.next_page_token response)
        && (S currentPage <? maxPages)%nat
     then getAllPlaces_loop fuel serviceType location apiKey
            (allResults ++ detailedResults) (Search.next_page_token response)
            (S currentPage)
     else Ret (allResults ++ detailedResults)%list).
Proof. reflexivity. Qed.

Lemma page_delay_calls (f : Event -> bool) (nextPageToken : option string) :
  (forall ms, f (SetTimeout ms) = false) ->
  calls_at_most f 0 (if truthy_opt_string nextPageToken then sleep 2000 else Ret tt).
Proof.
  intros Hf. destruct (truthy_opt_string nextPageToken); simpl; auto.
  rewrite Hf. auto.
Qed.

(** The page guard bounds the calls of the loop: started on page
    [currentPage], it fetches at most [maxPages - currentPage] pages,
    whatever bound the model gives it. *)
Lemma getAllPlaces_loop_pages (f : Event -> bool) :
  (forall ms, f (SetTimeout ms) = false) ->
  (forall url, f (PlaceDetailsGet url) = false) ->
  (forall msg e, f (ConsoleError msg e) = false) ->
  (forall s l k t, calls_at_most f 1 (searchPlaces s l k t)) ->
  forall fuel serviceType location apiKey allResults nextPageToken currentPage,
    currentPage < maxPages ->
    calls_at_most f (maxPages - currentPage)
      (getAllPlaces_loop fuel serviceType location apiKey
         allResults nextPageToken currentPage).
Proof.
  intros Ht Hd Hc Hs.
  induction fuel as [| fuel IH]; intros s l k acc tok cp Hcp; [simpl; auto |].
  rewrite getAllPlaces_loop_S.
  apply (calls_at_most_bind f _ _ 0 (maxPages - cp)); [apply page_delay_calls, Ht |].
  intros _.
  replace (maxPages - cp) with (1 + (maxPages - S cp)) by lia.
  apply (calls_at_most_bind f _ _ 1 (maxPages - S cp)); [apply Hs |].
  intros response.
  destruct (negb (Search.status response =? "OK")); [simpl; auto |].
  apply (calls_at_most_bind f _ _ 0 (maxPages - S cp)).
  - apply Promise_all_calls. apply Forall_forall. intros p Hp.
    apply in_map_iff in Hp. destruct Hp as [place [<- _]].
    apply detailed_calls; assumption.
  - intros detailedResults.
    destruct (truthy_opt_string (Search.next_page_token response)); [| simpl; auto].
    destruct (Nat.ltb_spec (S cp) maxPages) as [Hlt | Hge]; [| simpl; auto].
    cbn [andb]. apply IH, Hlt.
Qed.

Lemma getAllPlaces_loop_terminates :
  forall fuel serviceType location apiKey allResults nextPageToken currentPage,
    maxPages <= fuel + currentPage -> 1 <= fuel ->
    terminates
      (getAllPlaces_loop fuel serviceType location apiKey
         allResults nextPageToken currentPage).
Proof.
  induction fuel as [| fuel IH]; intros s l k acc tok cp Hsum Hpos; [lia |].
  rewrite getAllPlaces_loop_S.
  apply terminates_bind.
  { destruct (truthy_opt_string tok); simpl; auto. }
  intros _.
  apply terminates_bind; [apply searchPlaces_terminates |].
  intros response.
  destruct (negb (Search.status response =? "OK")); simpl; auto.
  apply terminates_bind.
  { apply Promise_all_terminates. apply Forall_forall. intros p Hp.
    apply in_map_iff in Hp. destruct Hp as [place [<- _]].
    apply detailed_terminates. }
  intros detailedResults.
  destruct (truthy_opt_string (Search.next_page_token response)); simpl; auto.
  destruct (Nat.ltb_spec (S cp) maxPages) as [Hlt | Hge]; simpl; auto.
  apply IH; lia.
Qed.

(** The loop of [getAllPlaces] always ends within its page bound: the
    model's fuel is never exhausted, whatever the upstream answers. *)
Lemma getAllPlaces_total (serviceType location : Component) (apiKey : string) :
  terminates (getAllPlaces serviceType location apiKey).
Proof.
  apply getAllPlaces_loop_terminates; unfold maxPages; lia.
Qed.

(** Past the page bound the model's fuel is irrelevant: two bounds that
    both cover the pages left give the same run. *)
Lemma getAllPlaces_loop_fuel {St : Type}
    (respond : forall e : Event, St -> Answer e * St) :
  forall fuel fuel' serviceType location apiKey allResults nextPageToken currentPage st,
    maxPages <= fuel + currentPage -> 1 <= fuel ->
    maxPages <= fuel' + currentPage -> 1 <= fuel' ->
    run respond
      (getAllPlaces_loop fuel serviceType location apiKey
         allResults nextPageToken currentPage) st =
    run respond
      (getAllPlaces_loop fuel' serviceType location apiKey
         allResults nextPageToken currentPage) st.
Proof.
  induction fuel as [| fuel IH]; intros [| fuel'] s l k acc tok cp st H1 H2 H3 H4;
    try lia.
  rewrite !getAllPlaces_loop_S.
  apply run_bind_ext; intros _ st1.
  apply run_bind_ext; intros response st2.
  destruct (negb (Search.status response =? "OK")); [reflexivity |].
  apply run_bind_ext; intros detailedResults st3.
  destruct (truthy_opt_string (Search.next_page_token response)); [| reflexivity].
  destruct (Nat.ltb_spec (S cp) maxPages) as [Hlt | Hge]; [| reflexivity].
  cbn [andb]. apply IH; lia.
Qed.

Lemma getAllPlaces_never_diverges {St : Type}
    (respond : forall e : Event, St -> Answer e * St) (st : St)
    (serviceType location : Component) (apiKey : string) :
  outcome (run respond (getAllPlaces serviceType location apiKey) st) <> Diverged.
Proof.
  apply terminates_run, getAllPlaces_total.
Qed.

(** ** The request handler *)

Lemma POST_terminates (key : option string) (request : NextRequest) :
  terminates (POST key request).
Proof.
  unfold POST. apply terminates_try_catch.
  - destruct (negb (truthy_opt_string key)); [exact I |].
    apply terminates_bind; [destruct (json request); exact I |].
    intros body. apply terminates_bind; [destruct body; exact I |].
    intros [serviceType location].
    destruct (negb (truthy_opt serviceType) || negb (truthy_opt location)); [exact I |].
    apply terminates_bind; [apply getAllPlaces_total |].
    intros places. destruct (List.length places =? 0)%nat; exact I.
  - intros e. cbn. auto.
Qed.

(** The handler always answers: it neither throws nor runs for ever,
    whatever the upstream does. *)
Lemma POST_always_responds {St : Type}
    (respond : forall e : Event, St -> Answer e * St) (st : St)
    (key : option string) (request : NextRequest) :
  exists response, outcome (run respond (POST key request) st) = Returned response.
Proof.
  apply returns_run; [apply POST_terminates |].
  unfold POST. apply never_throws_try_catch. intros e. cbn. auto.
Qed.

Lemma POST_calls (f : Event -> bool) (key : option string) (request : NextRequest) :
  (forall ms, f (SetTimeout ms) = false) ->
  (forall url, f (PlaceDetailsGet url) = false) ->
  (forall msg e, f (ConsoleError msg e) = false) ->
  (forall s l k t, calls_at_most f 1 (searchPlaces s l k t)) ->
  calls_at_most f maxPages (POST key request).
Proof.
  intros Ht Hd Hc Hs. unfold POST.
  apply (calls_at_most_try_catch f _ _ maxPages 0).
  - destruct (negb (truthy_opt_string key)); [simpl; auto |].
    apply (calls_at_most_bind f _ _ 0 maxPages).
    { destruct (json request); simpl; auto. }
    intros body.
    apply (calls_at_most_bind f _ _ 0 maxPages).
    { destruct body; simpl; auto. }
    intros [serviceType location].
    destruct (negb (truthy_opt serviceType) || negb (truthy_opt location));
      [simpl; auto |].
    refine (calls_at_most_bind f (getAllPlaces _ _ _) _ 3 0 _ _).
    + unfold getAllPlaces. change 3 with (maxPages - 0).
      apply (getAllPlaces_loop_pages f Ht Hd Hc Hs). unfold maxPages. lia.
    + intros places. destruct (List.length places =? 0)%nat; simpl; auto.
  - intros e. simpl. rewrite Hc. auto.
Qed.

(** C3. Whatever the upstream answers, and so also when the third page
    carries a next-page token, at most three page-search requests are
    issued, and it is the page guard of the loop that stops them: let the
    loop turn as often as one likes ([fuel] at least the page bound), it
    issues at most three page requests, it ends, and it runs exactly as
    [getAllPlaces] does.  The same bound holds for the handler as a whole. *)
Theorem no_fourth_page_request {St : Type}
    (respond : forall e : Event, St -> Answer e * St) (st : St)
    (fuel : nat) (serviceType location : Component) (apiKey : string)
    (key : option string) (request : NextRequest) :
  maxPages <= fuel ->
  let unbounded :=
    run respond (getAllPlaces_loop fuel serviceType location apiKey [] None 0) st in
  count is_nearbysearch (trace unbounded) <= 3
  /\ outcome unbounded <> Diverged
  /\ unbounded = run respond (getAllPlaces serviceType location apiKey) st
  /\ count is_nearbysearch (trace (run respond (POST key request) st)) <= 3.
Proof.
  intros Hfuel unbounded. subst unbounded.
  assert (Hs : forall s l k t, calls_at_most is_nearbysearch 1 (searchPlaces s l k t))
    by (intros; apply searchPlaces_nearbysearch_calls).
  repeat split.
  - apply calls_at_most_run. change 3 with (maxPages - 0).
    apply (getAllPlaces_loop_pages is_nearbysearch); auto.
    unfold maxPages; lia.
  - apply terminates_run, getAllPlaces_loop_terminates; unfold maxPages in *; lia.
  - unfold getAllPlaces.
    apply getAllPlaces_loop_fuel; unfold maxPages in *; lia.
  - apply calls_at_most_run. apply (POST_calls is_nearbysearch); auto.
Qed.

(** C6. When the credential is absent from the configuration (undefined,
    or the empty string), the handler answers Misconfigured with status 500
    and performs no effect at all, so no outbound call. *)
Theorem missing_credential_is_misconfigured {St : Type}
    (respond : forall e : Event, St -> Answer e * St) (st : St)
    (key : option string) (request : NextRequest) :
  truthy_opt_string key = false ->
  run respond (POST key request) st =
    {| trace := []; outcome := Returned misconfigured; final := st |}
  /\ response_status misconfigured = 500%Z.
Proof.
  intros Hkey. unfold POST. rewrite Hkey. simpl. split; reflexivity.
Qed.

(** C5, amended. When the credential is configured and the body parses to a
    JSON value other than [null], an empty or missing [serviceType] or
    [location] is answered with InvalidInput, status 400, and no effect is
    performed, so no outbound call. *)
Theorem empty_field_is_invalid_input {St : Type}
    (respond : forall e : Event, St -> Answer e * St) (st : St)
    (key : option string) (request : NextRequest) (body : JSON) :
  truthy_opt_string key = true ->
  json request = Resolved body ->
  body <> JNull ->
  truthy_opt (get body "serviceType") = false \/
  truthy_opt (get body "location") = false ->
  run respond (POST key request) st =
    {| trace := []; outcome := Returned invalid_input; final := st |}
  /\ response_status invalid_input = 400%Z.
Proof.
  intros Hkey Hjson Hnull Hfield. split; [| reflexivity].
  unfold POST. rewrite Hkey, Hjson.
  assert (Hd : destructure body = Ret (get body "serviceType", get body "location")).
  { destruct body; try reflexivity. contradiction. }
  cbn [negb await bind]. rewrite Hd. cbn [bind].
  replace (negb (truthy_opt (get body "serviceType"))
           || negb (truthy_opt (get body "location"))) with true.
  - reflexivity.
  - destruct Hfield as [-> | ->]; simpl; [reflexivity | apply eq_sym, orb_true_r].
Qed.

(** C10. When parsing the body throws, the handler answers with status 500
    and a JSON message, never with the InvalidInput response, and issues no
    outbound call.  With the credential configured the message is the one
    the catch-all computes from the thrown value; without it the body is not
    read and the message is the Misconfigured one. *)
Theorem unparseable_body_is_500 {St : Type}
    (respond : forall e : Event, St -> Answer e * St) (st : St)
    (key : option string) (request : NextRequest) (error : Thrown) :
  json request = Rejected error ->
  exists message,
    outcome (run respond (POST key request) st)
      = Returned (NextResponse_json message 500)
    /\ response_status (NextResponse_json message 500) = 500%Z
    /\ NextResponse_json message 500 <> invalid_input
    /\ count is_network (trace (run respond (POST key request) st)) = 0
    /\ (truthy_opt_string key = true -> message = errorMessage error)
    /\ (truthy_opt_string key = false ->
        NextResponse_json message 500 = misconfigured).
Proof.
  intros Hjson. unfold POST. rewrite Hjson.
  destruct (truthy_opt_string key) eqn:Hkey; cbn [negb await bind try_catch].
  - exists (errorMessage error). simpl.
    destruct (respond _ st) as [[] st']. simpl.
    repeat split; try discriminate; auto.
  - eexists. simpl. repeat split; try discriminate; auto.
Qed.

(** C7. When the aggregation completes with no record, the handler answers
    NoResults with status 404 and a JSON message; that response differs from
    every success response (200, spreadsheet body) and from every response
    with status 500. *)
Theorem zero_records_is_no_results {St : Type}
    (respond : forall e : Event, St -> Answer e * St) (st : St)
    (key : option string) (request : NextRequest) (body : JSON)
    (places : list Place.t) :
  truthy_opt_string key = true ->
  json request = Resolved body ->
  body <> JNull ->
  truthy_opt (get body "serviceType") = true ->
  truthy_opt (get body "location") = true ->
  outcome (run respond
             (getAllPlaces (ToString_opt (get body "serviceType"))
                (ToString_opt (get body "location")) (String_opt key)) st)
    = Returned places ->
  List.length places = 0 ->
  outcome (run respond (POST key request) st) = Returned no_results
  /\ response_status no_results = 404%Z
  /\ (forall found, no_results <> success found)
  /\ (forall r, response_status r = 200%Z \/ response_status r = 500%Z ->
                no_results <> r).
Proof.
  intros Hkey Hjson Hnull Hs Hl Hagg Hlen.
  split; [| split; [reflexivity | split]].
  - unfold POST. rewrite Hkey, Hjson.
    assert (Hd : destructure body = Ret (get body "serviceType", get body "location")).
    { destruct body; try reflexivity. contradiction. }
    cbn [negb await bind]. rewrite Hd. cbn [bind].
    rewrite Hs, Hl. cbn [negb orb].
    rewrite run_try_catch, run_bind, Hagg. cbn [outcome].
    rewrite Hlen. reflexivity.
  - intros found. discriminate.
  - intros r [H | H] E; subst r; discriminate H.
Qed.

(** ** The spreadsheet rows *)

Lemma rows_of_places (places : list Place.t) (i : nat) (place : Place.t) :
  nth_error places i = Some place ->
  nth_error (rows (generateExcel places)) i = Some (addRow place).
Proof.
  intros H. simpl. apply map_nth_error, H.
Qed.

(** C9. In every exported row a place without rating shows the string
    "N/A" in the rating column (neither the number zero nor an empty cell),
    and a place without rating count shows the number zero in the
    rating-count column. *)
Theorem absent_rating_is_NA (places : list Place.t) (i : nat) (place : Place.t) :
  nth_error places i = Some place ->
  exists row,
    nth_error (rows (generateExcel places)) i = Some row
    /\ (Place.rating place = None ->
        Row.rating row = CellString "N/A"
        /\ Row.rating row <> CellNumber 0
        /\ Row.rating row <> CellString ""
        /\ Row.rating row <> CellUndefined)
    /\ (Place.user_ratings_total place = None ->
        Row.ratings_count row = CellNumber 0).
Proof.
  intros H. exists (addRow place). split; [apply rows_of_places, H |].
  split; intros Hnone; simpl; rewrite Hnone.
  - repeat split; discriminate.
  - reflexivity.
Qed.

(** *** Characters of the business-type cell *)

Lemma contains_char_cons (c a : ascii) (s : string) :
  contains (String c EmptyString) (String a s)
  = Ascii.eqb c a || contains (String c EmptyString) s.
Proof.
  simpl. destruct (ascii_dec c a) as [-> | Hne].
  - rewrite Ascii.eqb_refl. destruct s; reflexivity.
  - apply Ascii.eqb_neq in Hne. rewrite Hne. reflexivity.
Qed.

Lemma contains_char_nil (c : ascii) :
  contains (String c EmptyString) EmptyString = false.
Proof. reflexivity. Qed.











(** ** The aggregation on a fixed upstream *)

Lemma exec_bind {A B} (u : Upstream) (p : Prog A) (f : A -> Prog B) :
  outcome (exec u (bind p f)) =
  match outcome (exec u p) with
  | Returned a => outcome (exec u (f a))
  | Threw e => Threw e
  | Diverged => Diverged
  end.
Proof.
  unfold exec. rewrite run_bind.
  destruct (outcome (run (answer u) p tt)); try reflexivity.
  cbn. destruct (final (run (answer u) p tt)). reflexivity.
Qed.

Lemma exec_detailed (u : Upstream) (apiKey : string) (place : Search.Item) :
  outcome (exec u (detailed apiKey place)) = Returned (enriched u apiKey place).
Proof.
  unfold exec, detailed, enriched, getPlaceDetails, axios_get_details. simpl.
  destruct (details_api u _); reflexivity.
Qed.

Lemma exec_page (u : Upstream) (apiKey : string) (items : list Search.Item) :
  outcome (exec u (Promise_all (map (detailed apiKey) items)))
  = Returned (map (enriched u apiKey) items).
Proof.
  induction items as [| place items IH]; [reflexivity |].
  cbn [map Promise_all].
  rewrite exec_bind, exec_detailed, exec_bind, IH. reflexivity.
Qed.

Lemma exec_searchPlaces (u : Upstream) (serviceType location apiKey : string)
    (pageToken : option string) (geo : Geocode.Response) (first : Geocode.Result) :
  geocode_api u (geocode_url location apiKey) = Resolved geo ->
  Geocode.status geo = "OK" ->
  nth_error (Geocode.results geo) 0 = Some first ->
  outcome (exec u (searchPlaces serviceType location apiKey pageToken)) =
  match nearbysearch_api u
          (search_url (Geocode.lat (Geocode.location (Geocode.geometry first)))
             (Geocode.lng (Geocode.location (Geocode.geometry first)))
             serviceType apiKey pageToken) with
  | Resolved page => Returned page
  | Rejected e => Threw e
  end.
Proof.
  intros Hgeo Hstatus Hfirst.
  unfold exec, searchPlaces, uri_component, axios_get_geocode, geocode_rejected.
  cbn [run bind answer fst snd]. rewrite Hgeo. cbn [await bind].
  rewrite Hstatus, Hfirst. cbn.
  destruct (nearbysearch_api u _); reflexivity.
Qed.

Lemma exec_searchPlaces_details (u : Upstream)
    (d : string -> Settled Details.Response)
    (serviceType location : Component) (apiKey : string)
    (pageToken : option string) :
  outcome (exec (with_details u d) (searchPlaces serviceType location apiKey pageToken))
  = outcome (exec u (searchPlaces serviceType location apiKey pageToken)).
Proof.
  unfold exec, searchPlaces, uri_component, axios_get_geocode.
  destruct location as [address | uri]; [| reflexivity].
  cbn [run bind answer with_details geocode_api].
  destruct (geocode_api u _) as [geo | e]; cbn; [| reflexivity].
  destruct (geocode_rejected geo); cbn; [reflexivity |].
  destruct (Geocode.results geo) as [| first others]; cbn; [reflexivity |].
  destruct serviceType as [keyword | uri]; cbn; [| reflexivity].
  destruct (nearbysearch_api u _); reflexivity.
Qed.

Lemma getAllPlaces_loop_outcome (u : Upstream) :
  forall fuel serviceType location apiKey allResults nextPageToken currentPage,
    outcome (exec u (getAllPlaces_loop fuel serviceType location apiKey
                       allResults nextPageToken currentPage)) =
    match pages_fetched u fuel serviceType location apiKey
            nextPageToken currentPage with
    | Returned pages =>
        Returned (allResults ++
                  flat_map (fun page => map (enriched u apiKey) (Search.results page))
                    pages)%list
    | Threw e => Threw e
    | Diverged => Diverged
    end.
Proof.
  induction fuel as [| fuel IH]; intros s l k acc tok cp; [reflexivity |].
  rewrite getAllPlaces_loop_S, exec_bind.
  assert (Hdelay : outcome (exec u (if truthy_opt_string tok
                                    then sleep 2000 else Ret tt)) = Returned tt).
  { destruct (truthy_opt_string tok); reflexivity. }
  rewrite Hdelay, exec_bind. cbn [pages_fetched].
  destruct (outcome (exec u (searchPlaces s l k tok))) as [response | e |];
    try reflexivity.
  destruct (negb (Search.status response =? "OK")); [reflexivity |].
  rewrite exec_bind, exec_page.
  destruct (truthy_opt_string (Search.next_page_token response)
            && (S cp <? maxPages)%nat).
  - rewrite IH.
    destruct (pages_fetched u fuel s l k (Search.next_page_token response) (S cp));
      try reflexivity.
    cbn [flat_map]. rewrite app_assoc. reflexivity.
  - cbn [flat_map]. rewrite app_nil_r. reflexivity.
Qed.

Lemma pages_fetched_with_details (u : Upstream)
    (d : string -> Settled Details.Response) :
  forall fuel serviceType location apiKey nextPageToken currentPage,
    pages_fetched (with_details u d) fuel serviceType location apiKey
      nextPageToken currentPage
    = pages_fetched u fuel serviceType location apiKey nextPageToken currentPage.
Proof.
  induction fuel as [| fuel IH]; intros s l k tok cp; [reflexivity |].
  cbn [pages_fetched]. rewrite exec_searchPlaces_details.
  destruct (outcome (exec u (searchPlaces s l k tok))) as [response | e |];
    try reflexivity.
  rewrite IH. reflexivity.
Qed.

Lemma item_enriched (u : Upstream) (apiKey : string) (place : Search.Item) :
  Place.item (enriched u apiKey place) = place.
Proof.
  unfold enriched. destruct (details_api u _); destruct place; reflexivity.
Qed.

Lemma items_of_pages (u : Upstream) (apiKey : string) (pages : list Search.Response) :
  map Place.item
    (flat_map (fun page => map (enriched u apiKey) (Search.results page)) pages)
  = List.concat (map Search.results pages).
Proof.
  induction pages as [| page pages IH]; [reflexivity |].
  cbn [flat_map map List.concat]. rewrite map_app, IH, map_map. f_equal.
  rewrite <- (map_id (Search.results page)) at 2.
  apply map_ext. intros place. apply item_enriched.
Qed.

Lemma length_pages (K : nat) (pages : list Search.Response) :
  Forall (fun page => List.length (Search.results page) = K) pages ->
  List.length (List.concat (map Search.results pages)) = List.length pages * K.
Proof.
  induction 1 as [| page pages Hpage _ IH]; [reflexivity |].
  cbn [map List.concat List.length]. rewrite length_app, Hpage, IH. reflexivity.
Qed.

Lemma search_url_token (lat lng : float) (serviceType apiKey token : string) :
  truthy_string token = true ->
  search_url lat lng serviceType apiKey (Some token) = pagetoken_url token apiKey.
Proof.
  intros H. unfold search_url. rewrite H. reflexivity.
Qed.

Lemma served_pages_fetched (u : Upstream) (serviceType location apiKey : string)
    (geo : Geocode.Response) (first : Geocode.Result) :
  geocode_api u (geocode_url location apiKey) = Resolved geo ->
  Geocode.status geo = "OK" ->
  nth_error (Geocode.results geo) 0 = Some first ->
  forall pages fuel nextPageToken currentPage,
    pages <> [] ->
    served u apiKey
      (search_url (Geocode.lat (Geocode.location (Geocode.geometry first)))
         (Geocode.lng (Geocode.location (Geocode.geometry first)))
         serviceType apiKey nextPageToken) pages ->
    Forall (fun page => Search.status page = "OK") pages ->
    List.length pages <= fuel ->
    fuel + currentPage = maxPages ->
    List.length pages = fuel \/ truthy_opt_string (last_token pages) = false ->
    pages_fetched u fuel serviceType location apiKey nextPageToken currentPage
    = Returned pages.
Proof.
  intros Hgeo Hstatus Hfirst.
  induction pages as [| page rest IH]; intros fuel tok cp Hne Hserved Hok Hlen Hsum Hlast;
    [contradiction |].
  destruct fuel as [| fuel]; [simpl in Hlen; lia |].
  cbn [pages_fetched].
  rewrite (@exec_searchPlaces u serviceType location apiKey tok geo first Hgeo Hstatus Hfirst).
  destruct Hserved as [Hpage Hrest]. rewrite Hpage.
  inversion Hok as [| ? ? Hst Hok']; subst.
  rewrite Hst. cbn [String.eqb negb].
  change ("OK" =? "OK") with true. cbn [negb].
  destruct rest as [| page2 rest].
  - replace (truthy_opt_string (Search.next_page_token page)
             && (S cp <? maxPages)%nat) with false; [reflexivity |].
    destruct Hlast as [Hfull | Hnone].
    + simpl in Hfull.
      assert (Hcp : (S cp <? maxPages)%nat = false) by (apply Nat.ltb_ge; lia).
      rewrite Hcp. apply eq_sym, andb_false_r.
    + unfold last_token in Hnone. simpl in Hnone. rewrite Hnone. reflexivity.
  - destruct Hrest as [token [Htok [Htruthy Hrest]]].
    assert (Hcp : (S cp <? maxPages)%nat = true).
    { apply Nat.ltb_lt. simpl in Hlen. lia. }
    rewrite Htok. cbn [truthy_opt_string]. rewrite Htruthy, Hcp. cbn [andb].
    rewrite (IH fuel (Some token) (S cp)); try reflexivity.
    + discriminate.
    + rewrite search_url_token by exact Htruthy. exact Hrest.
    + exact Hok'.
    + simpl in Hlen |- *. lia.
    + lia.
    + destruct Hlast as [Hfull | Hnone]; [left; simpl in Hfull |- *; lia |].
      right. exact Hnone.
Qed.

(** C1. On an upstream whose search serves [N] pages ([1 <= N <= 3]: the
    first for the keyword request, each next one for the token of the page
    before, the last one without token unless it is the third), every page
    with status OK and [K] records, and with every detail lookup succeeding,
    [getAllPlaces] returns [N * K] places: the records of the pages, page by
    page and in the order of each page, each with the fields of its detail
    record; the spreadsheet has one data row per place, in the same order. *)
Theorem pages_aggregated_in_order (u : Upstream)
    (serviceType location apiKey : string)
    (geo : Geocode.Response) (first : Geocode.Result)
    (pages : list Search.Response) (N K : nat) :
  geocode_api u (geocode_url location apiKey) = Resolved geo ->
  Geocode.status geo = "OK" ->
  nth_error (Geocode.results geo) 0 = Some first ->
  List.length pages = N ->
  1 <= N <= maxPages ->
  served u apiKey
    (nearby_url (Geocode.lat (Geocode.location (Geocode.geometry first)))
       (Geocode.lng (Geocode.location (Geocode.geometry first)))
       serviceType apiKey) pages ->
  N = maxPages \/ truthy_opt_string (last_token pages) = false ->
  Forall (fun page => Search.status page = "OK"
                      /\ List.length (Search.results page) = K) pages ->
  Forall (fun page =>
            Forall (fun place =>
                      exists details,
                        details_api u (details_url (Search.place_id place) apiKey)
                        = Resolved details)
              (Search.results page)) pages ->
  exists places,
    outcome (exec u (getAllPlaces serviceType location apiKey)) = Returned places
    /\ List.length places = N * K
    /\ map Place.item places = List.concat (map Search.results pages)
    /\ Forall (fun p =>
                 exists details,
                   details_api u (details_url (Place.place_id p) apiKey)
                   = Resolved details
                   /\ p = Place.spread (Place.item p)
                            (or_opt_string (Details.website (Details.result details)) "")
                            (or_opt_string
                               (Details.formatted_phone_number (Details.result details)) "")
                            (or_string (Details.formatted_address (Details.result details))
                               (Place.vicinity p)))
         places
    /\ List.length (rows (generateExcel places)) = N * K
    /\ map Row.name (rows (generateExcel places))
       = map (fun place => CellString (Search.name place))
           (List.concat (map Search.results pages)).
Proof.
  intros Hgeo Hstatus Hfirst HN Hbound Hserved Hlast Hpages Hdetails.
  assert (Hfetched : pages_fetched u maxPages serviceType location apiKey None 0
                     = Returned pages).
  { apply (@served_pages_fetched u serviceType location apiKey geo first Hgeo Hstatus Hfirst).
    - intros ->. simpl in HN. lia.
    - exact Hserved.
    - apply Forall_impl with (2 := Hpages). intros page [H _]. exact H.
    - lia.
    - lia.
    - destruct Hlast as [H | H]; [left; lia | right; exact H]. }
  set (places := flat_map (fun page => map (enriched u apiKey) (Search.results page))
                   pages).
  assert (Hitems : map Place.item places = List.concat (map Search.results pages))
    by apply items_of_pages.
  assert (Hlen : List.length places = N * K).
  { rewrite <- (length_map Place.item), Hitems, <- HN. apply length_pages.
    apply Forall_impl with (2 := Hpages). intros page [_ H]. exact H. }
  exists places. split; [| split; [| split; [| split; [| split]]]].
  - unfold getAllPlaces. rewrite getAllPlaces_loop_outcome, Hfetched. reflexivity.
  - exact Hlen.
  - exact Hitems.
  - apply Forall_forall. intros p Hp. unfold places in Hp.
    apply in_flat_map in Hp. destruct Hp as [page [Hpage Hp]].
    apply in_map_iff in Hp. destruct Hp as [place [<- Hplace]].
    rewrite Forall_forall in Hdetails. specialize (Hdetails page Hpage).
    rewrite Forall_forall in Hdetails. destruct (Hdetails place Hplace) as [details Hd].
    exists details. rewrite item_enriched. unfold enriched. rewrite Hd.
    split; [exact Hd | reflexivity].
  - cbn [rows generateExcel]. rewrite length_map. exact Hlen.
  - cbn [rows generateExcel]. rewrite <- Hitems, !map_map. reflexivity.
Qed.

(** C4. A failing detail lookup never makes the page callback, the page
    or the search throw.  Whatever the upstream answers, the callback
    returns, and so does the page, with its records in their order; and on
    an upstream where the search returns, replacing the detail answers by
    any others, failures included, leaves it returning the same records at
    the same positions, those whose lookup is rejected carrying an empty
    website, an empty phone and the short address as address. *)
Theorem detail_failure_keeps_record (apiKey : string) :
  (forall (St : Type) (respond : forall e : Event, St -> Answer e * St) (st : St)
          (items : list Search.Item),
      exists detailedResults,
        outcome (run respond (Promise_all (map (detailed apiKey) items)) st)
        = Returned detailedResults
        /\ map Place.item detailedResults = items)
  /\
  (forall (u : Upstream) (d : string -> Settled Details.Response)
          (serviceType location : string) (places : list Place.t),
      outcome (exec u (getAllPlaces serviceType location apiKey)) = Returned places ->
      exists places',
        outcome (exec (with_details u d) (getAllPlaces serviceType location apiKey))
        = Returned places'
        /\ map Place.item places' = map Place.item places
        /\ forall i p e,
             nth_error places' i = Some p ->
             d (details_url (Place.place_id p) apiKey) = Rejected e ->
             defaulted p).
Proof.
  split.
  - intros St respond st items. revert st.
    induction items as [| place items IH]; intros st.
    + exists []. split; reflexivity.
    + cbn [map Promise_all]. rewrite run_bind_outcome.
      assert (Hone : exists p,
                 outcome (run respond (detailed apiKey place) st) = Returned p
                 /\ Place.item p = place).
      { unfold detailed, getPlaceDetails, axios_get_details. cbn.
        destruct (respond (PlaceDetailsGet _) st) as [[details | e] st1]; cbn.
        - eexists. split; [reflexivity | destruct place; reflexivity].
        - destruct (respond (ConsoleError _ _) st1) as [[] st2]; cbn.
          eexists. split; [reflexivity | destruct place; reflexivity]. }
      destruct Hone as [p [Hp Hitem]]. rewrite Hp, run_bind_outcome.
      destruct (IH (final (run respond (detailed apiKey place) st))) as [ps [Hps Hitems]].
      rewrite Hps. exists (p :: ps). split; [reflexivity |].
      cbn [map]. rewrite Hitem, Hitems. reflexivity.
  - intros u d serviceType location places H.
    unfold getAllPlaces in *.
    rewrite getAllPlaces_loop_outcome in H |- *.
    rewrite pages_fetched_with_details.
    destruct (pages_fetched u maxPages serviceType location apiKey None 0)
      as [pages | e |]; try discriminate.
    injection H as <-. eexists. split; [reflexivity |]. split.
    + cbn [app]. rewrite !items_of_pages. reflexivity.
    + intros i p e Hnth Hrej. apply nth_error_In in Hnth. cbn [app] in Hnth.
      apply in_flat_map in Hnth. destruct Hnth as [page [_ Hp]].
      apply in_map_iff in Hp. destruct Hp as [place [<- _]].
      unfold enriched in *. cbn [with_details details_api] in *.
      destruct (d (details_url (Search.place_id place) apiKey)) eqn:E.
      * cbn [Place.place_id Place.spread] in Hrej. rewrite E in Hrej. discriminate.
      * unfold defaulted. cbn. repeat split.
Qed.

(** ** Geocoding calls *)

Lemma count_app (f : Event -> bool) (t1 t2 : list Event) :
  count f (t1 ++ t2) = count f t1 + count f t2.
Proof.
  unfold count. rewrite filter_app, length_app. reflexivity.
Qed.

Section Geocoding.
Context {St : Type}.
Variable respond : forall e : Event, St -> Answer e * St.

Lemma geocoded_bind {A B} (p : Prog A) (f : A -> Prog B) :
  (forall st, geocoded_per_search (run respond p st)) ->
  (forall a st, geocoded_per_search (run respond (f a) st)) ->
  forall st, geocoded_per_search (run respond (bind p f) st).
Proof.
  intros Hp Hf st. unfold geocoded_per_search.
  rewrite run_bind_trace, run_bind_outcome.
  destruct (Hp st) as [Hp1 [Hp2 Hp3]].
  destruct (outcome (run respond p st)) as [a | e |].
  - destruct (Hf a (final (run respond p st))) as [Hf1 [Hf2 Hf3]].
    specialize (Hp3 a eq_refl). rewrite !count_app.
    repeat split; try lia. intros b Hb. specialize (Hf3 b Hb). lia.
  - repeat split; try lia; try discriminate.
  - repeat split; try lia; try discriminate.
Qed.

Lemma geocoded_silent {A} (p : Prog A) :
  calls_at_most is_geocode 0 p ->
  calls_at_most is_nearbysearch 0 p ->
  forall st, geocoded_per_search (run respond p st).
Proof.
  intros Hg Hn st.
  pose proof (calls_at_most_run respond is_geocode p 0 st Hg).
  pose proof (calls_at_most_run respond is_nearbysearch p 0 st Hn).
  unfold geocoded_per_search. repeat split; lia.
Qed.

(** A page fetch whose location can be escaped geocodes first, once, and
    then issues at most the search request. *)
Lemma searchPlaces_run (serviceType : Component) (location apiKey : string)
    (pageToken : option string) (st : St) :
  (trace (run respond (searchPlaces serviceType location apiKey pageToken) st)
   = [GeocodeGet (geocode_url location apiKey)]
   /\ exists e,
        outcome (run respond (searchPlaces serviceType location apiKey pageToken) st)
        = Threw e)
  \/ (exists lat lng keyword,
        serviceType = Escapes keyword
        /\ trace (run respond (searchPlaces serviceType location apiKey pageToken) st)
           = [GeocodeGet (geocode_url location apiKey);
              NearbySearchGet (search_url lat lng keyword apiKey pageToken)]
        /\ ((exists page,
               outcome (run respond
                          (searchPlaces serviceType location apiKey pageToken) st)
               = Returned page)
            \/ exists e,
                 outcome (run respond
                            (searchPlaces serviceType location apiKey pageToken) st)
                 = Threw e)).
Proof.
  unfold searchPlaces, uri_component, axios_get_geocode, axios_get_nearbysearch.
  cbn [run bind].
  destruct (respond (GeocodeGet _) st) as [[geo | e] st1]; cbn [await bind].
  - destruct (geocode_rejected geo); [left; cbn; eauto |].
    destruct (nth_error (Geocode.results geo) 0) as [first |]; [| left; cbn; eauto].
    destruct serviceType as [keyword | uri]; [| left; cbn; eauto].
    right. cbn [run bind].
    destruct (respond (NearbySearchGet _) st1) as [[page | e] st2];
      cbn; do 3 eexists; repeat split; eauto.
  - left. cbn. eauto.
Qed.

(** A page fetch whose location cannot be escaped throws before any call. *)
Lemma searchPlaces_unescapable (serviceType : Component) (e : Thrown)
    (apiKey : string) (pageToken : option string) (st : St) :
  run respond (searchPlaces serviceType (Throws e) apiKey pageToken) st
  = {| trace := []; outcome := Threw e; final := st |}.
Proof. reflexivity. Qed.

Lemma getAllPlaces_unescapable (serviceType : Component) (e : Thrown)
    (apiKey : string) (st : St) :
  run respond (getAllPlaces serviceType (Throws e) apiKey) st
  = {| trace := []; outcome := Threw e; final := st |}.
Proof. reflexivity. Qed.

Lemma searchPlaces_geocoded (serviceType location : Component) (apiKey : string)
    (pageToken : option string) (st : St) :
  geocoded_per_search
    (run respond (searchPlaces serviceType location apiKey pageToken) st).
Proof.
  unfold geocoded_per_search.
  destruct location as [address | uri].
  - destruct (searchPlaces_run serviceType address apiKey pageToken st)
      as [[Ht [e He]] | [lat [lng [keyword [_ [Ht _]]]]]]; rewrite Ht.
    + rewrite He. cbn. repeat split; try lia; try discriminate.
    + cbn. repeat split; try lia; try discriminate.
  - rewrite searchPlaces_unescapable. cbn. repeat split; try lia; try discriminate.
Qed.

Lemma getAllPlaces_loop_geocoded :
  forall fuel serviceType location apiKey allResults nextPageToken currentPage st,
    geocoded_per_search
      (run respond (getAllPlaces_loop fuel serviceType location apiKey
                      allResults nextPageToken currentPage) st).
Proof.
  induction fuel as [| fuel IH]; intros s l k acc tok cp st.
  - cbn. unfold geocoded_per_search. cbn. repeat split; try lia; try discriminate.
  - rewrite getAllPlaces_loop_S. revert st.
    apply geocoded_bind.
    { apply geocoded_silent; apply page_delay_calls; reflexivity. }
    intros _. apply geocoded_bind; [apply searchPlaces_geocoded |].
    intros response st.
    destruct (negb (Search.status response =? "OK")).
    { unfold geocoded_per_search. cbn. repeat split; try lia; try discriminate. }
    revert st. apply geocoded_bind.
    { apply geocoded_silent; apply Promise_all_calls; apply Forall_forall;
        intros p Hp; apply in_map_iff in Hp; destruct Hp as [place [<- _]];
        apply detailed_calls; reflexivity. }
    intros detailedResults st.
    destruct (truthy_opt_string (Search.next_page_token response)
              && (S cp <? maxPages)%nat).
    + apply IH.
    + unfold geocoded_per_search. cbn. repeat split; try lia; try discriminate.
Qed.

Lemma getAllPlaces_geocodes_first (serviceType : Component)
    (location apiKey : string) (st : St) :
  exists rest,
    trace (run respond (getAllPlaces serviceType location apiKey) st)
    = GeocodeGet (geocode_url location apiKey) :: rest.
Proof.
  unfold getAllPlaces, maxPages. rewrite getAllPlaces_loop_S.
  cbn [truthy_opt_string bind]. unfold searchPlaces, uri_component, axios_get_geocode.
  cbn [bind run]. destruct (respond (GeocodeGet _) st) as [x st1].
  cbn [trace]. eexists. reflexivity.
Qed.

End Geocoding.

(** C2, amended. When the location can be escaped, the geocoding endpoint
    is called once in every page fetch, before that fetch's search request,
    and the fetch throws when the geocoding fails, with or without a
    pagination token; over a request it is therefore called as often as
    pages are searched (once more when the last fetch stops at the geocoding
    step), between one and three times, and it is the page guard that sets
    the upper bound: the loop allowed any number of turns ([fuel] at least
    the page bound) runs as [getAllPlaces] does.  The search URL of a fetch
    with a pagination token is made of the token and the key alone: keyword
    and coordinates are ignored.  When the location cannot be escaped, the
    fetch and the aggregation throw what the escaping throws and call
    nothing. *)
Theorem geocoding_in_every_page_fetch {St : Type}
    (respond : forall e : Event, St -> Answer e * St) (st : St)
    (fuel : nat) (serviceType : Component) (location apiKey : string) :
  maxPages <= fuel ->
  (forall pageToken,
      (trace (run respond (searchPlaces serviceType location apiKey pageToken) st)
       = [GeocodeGet (geocode_url location apiKey)]
       /\ exists e,
            outcome (run respond
                       (searchPlaces serviceType location apiKey pageToken) st)
            = Threw e)
      \/ exists lat lng keyword,
           serviceType = Escapes keyword
           /\ trace (run respond
                       (searchPlaces serviceType location apiKey pageToken) st)
              = [GeocodeGet (geocode_url location apiKey);
                 NearbySearchGet (search_url lat lng keyword apiKey pageToken)])
  /\ (forall lat lng keyword token,
        truthy_string token = true ->
        search_url lat lng keyword apiKey (Some token)
        = pagetoken_url token apiKey)
  /\ (forall (u : Upstream) pageToken,
        (forall e,
            geocode_api u (geocode_url location apiKey) = Rejected e ->
            outcome (exec u (searchPlaces serviceType location apiKey pageToken))
            = Threw e)
        /\ (forall geo,
              geocode_api u (geocode_url location apiKey) = Resolved geo ->
              geocode_rejected geo = true ->
              outcome (exec u (searchPlaces serviceType location apiKey pageToken))
              = Threw location_not_found))
  /\ 1 <= count is_geocode
            (trace (run respond
                      (getAllPlaces_loop fuel serviceType location apiKey [] None 0)
                      st))
       <= maxPages
  /\ run respond (getAllPlaces_loop fuel serviceType location apiKey [] None 0) st
     = run respond (getAllPlaces serviceType location apiKey) st
  /\ geocoded_per_search (run respond (getAllPlaces serviceType location apiKey) st)
  /\ (forall e pageToken,
        run respond (searchPlaces serviceType (Throws e) apiKey pageToken) st
        = {| trace := []; outcome := Threw e; final := st |})
  /\ (forall e,
        run respond (getAllPlaces serviceType (Throws e) apiKey) st
        = {| trace := []; outcome := Threw e; final := st |}).
Proof.
  intros Hfuel.
  assert (Hrun :
    run respond (getAllPlaces_loop fuel serviceType location apiKey [] None 0) st
    = run respond (getAllPlaces serviceType location apiKey) st).
  { unfold getAllPlaces. apply getAllPlaces_loop_fuel; unfold maxPages in *; lia. }
  split; [| split; [| split; [| split; [| split; [| split; [| split]]]]]].
  - intros pageToken.
    destruct (searchPlaces_run respond serviceType location apiKey pageToken st)
      as [H | [lat [lng [keyword [Hk [H _]]]]]]; [left; exact H | right; eauto].
  - intros lat lng keyword token. apply search_url_token.
  - intros u pageToken.
    split; [intros e H | intros geo H Hrej];
      unfold exec, searchPlaces, uri_component, axios_get_geocode;
      cbn [run bind answer]; rewrite H; cbn [await bind]; [| rewrite Hrej];
      reflexivity.
  - split.
    + rewrite Hrun.
      destruct (getAllPlaces_geocodes_first respond serviceType location apiKey st)
        as [rest ->].
      unfold count. cbn. lia.
    + apply calls_at_most_run. change maxPages with (maxPages - 0) at 1.
      apply (getAllPlaces_loop_pages is_geocode); auto.
      * intros; apply searchPlaces_geocode_calls.
      * unfold maxPages; lia.
  - exact Hrun.
  - apply getAllPlaces_loop_geocoded.
  - intros e pageToken. reflexivity.
  - intros e. reflexivity.
Qed.

(** ** Further properties of the handler *)


Lemma all_returns_try_catch {A} (Q : A -> Prop) (p : Prog A) (h : Thrown -> Prog A) :
  all_returns Q p ->
  (forall e, all_returns Q (h e)) ->
  all_returns Q (try_catch p h).
Proof.
  induction p as [a | e | | e k IH]; intros Hp Hh; simpl in *; auto.
Qed.



(** The five ways a request is answered. *)
Lemma POST_cases {St : Type} (respond : forall e : Event, St -> Answer e * St)
    (st : St) (key : option string) (request : NextRequest) :
  (truthy_opt_string key = false
   /\ run respond (POST key request) st
      = {| trace := []; outcome := Returned misconfigured; final := st |})
  \/ (truthy_opt_string key = true
      /\ exists e,
           (json request = Rejected e
            \/ json request = Resolved JNull)
           /\ outcome (run respond (POST key request) st)
              = Returned (NextResponse_json (errorMessage e) 500)
           /\ trace (run respond (POST key request) st) = [ConsoleError handled_log e])
  \/ (truthy_opt_string key = true
      /\ exists body,
           json request = Resolved body /\ body <> JNull
           /\ (truthy_opt (get body "serviceType") = false
               \/ truthy_opt (get body "location") = false)
           /\ run respond (POST key request) st
              = {| trace := []; outcome := Returned invalid_input; final := st |})
  \/ (truthy_opt_string key = true
      /\ exists body,
           json request = Resolved body /\ body <> JNull
           /\ truthy_opt (get body "serviceType") = true
           /\ truthy_opt (get body "location") = true
           /\ ((exists places,
                  outcome (run respond
                             (getAllPlaces (ToString_opt (get body "serviceType"))
                                (ToString_opt (get body "location")) (String_opt key)) st)
                  = Returned places
                  /\ outcome (run respond (POST key request) st)
                     = Returned (if (List.length places =? 0)%nat
                                 then no_results else success places)
                  /\ trace (run respond (POST key request) st)
                     = trace (run respond
                                (getAllPlaces (ToString_opt (get body "serviceType"))
                                   (ToString_opt (get body "location")) (String_opt key)) st))
               \/ (exists e,
                     outcome (run respond
                                (getAllPlaces (ToString_opt (get body "serviceType"))
                                   (ToString_opt (get body "location")) (String_opt key)) st)
                     = Threw e
                     /\ outcome (run respond (POST key request) st)
                        = Returned (NextResponse_json (errorMessage e) 500)
                     /\ trace (run respond (POST key request) st)
                        = (trace (run respond
                                    (getAllPlaces (ToString_opt (get body "serviceType"))
                                       (ToString_opt (get body "location")) (String_opt key))
                                    st)
                           ++ [ConsoleError handled_log e])%list))).
Proof.
  destruct (truthy_opt_string key) eqn:Hkey.
  2: { left. split; [reflexivity |]. unfold POST. rewrite Hkey. reflexivity. }
  right.
  destruct (json request) as [body | e] eqn:Hjson.
  2: { left. split; [reflexivity |]. exists e. split; [left; reflexivity |].
       unfold POST. rewrite Hkey, Hjson. cbn [negb await bind try_catch].
       unfold console_error. cbn [bind run].
       destruct (respond (ConsoleError _ e) st) as [[] st']. split; reflexivity. }
  assert (Hbody : body = JNull \/ body <> JNull).
  { destruct body; (left; reflexivity) || (right; discriminate). }
  destruct Hbody as [-> | Hnull].
  { left. split; [reflexivity |]. eexists. split; [right; reflexivity |].
    unfold POST. rewrite Hkey, Hjson. cbn [negb await bind destructure try_catch].
    unfold console_error. cbn [bind run].
    destruct (respond (ConsoleError _ _) st) as [[] st']. split; reflexivity. }
  right.
  assert (Hd : destructure body = Ret (get body "serviceType", get body "location")).
  { destruct body; try reflexivity. contradiction. }
  destruct (truthy_opt (get body "serviceType")) eqn:Hs;
    [destruct (truthy_opt (get body "location")) eqn:Hl |].
  - right. split; [reflexivity |]. exists body.
    split; [reflexivity |]. split; [exact Hnull |]. split; [exact Hs |].
    split; [exact Hl |].
    unfold POST. rewrite Hkey, Hjson. cbn [negb await bind]. rewrite Hd. cbn [bind].
    rewrite Hs, Hl. cbn [negb orb].
    rewrite run_try_catch, run_bind.
    pose proof (getAllPlaces_never_diverges respond st
                  (ToString_opt (get body "serviceType"))
                  (ToString_opt (get body "location")) (String_opt key)) as Hdiv.
    destruct (outcome (run respond
                         (getAllPlaces (ToString_opt (get body "serviceType"))
                            (ToString_opt (get body "location")) (String_opt key)) st))
      as [places | e |]; [| | contradiction].
    + left. exists places. split; [reflexivity |].
      destruct (List.length places =? 0)%nat; cbn; rewrite app_nil_r; split; reflexivity.
    + right. exists e. split; [reflexivity |].
      cbn [outcome trace final]. unfold console_error. cbn [bind run].
      destruct (respond (ConsoleError _ e) _) as [[] st']. split; reflexivity.
  - left. split; [reflexivity |]. exists body.
    split; [reflexivity |]. split; [exact Hnull |]. split; [right; exact Hl |].
    unfold POST. rewrite Hkey, Hjson. cbn [negb await bind]. rewrite Hd. cbn [bind].
    rewrite Hs, Hl. reflexivity.
  - left. split; [reflexivity |]. exists body.
    split; [reflexivity |]. split; [exact Hnull |]. split; [left; exact Hs |].
    unfold POST. rewrite Hkey, Hjson. cbn [negb await bind]. rewrite Hd. cbn [bind].
    rewrite Hs. reflexivity.
Qed.

(** X1. The handler always answers, and only with status 200, 400, 404 or
    500, whatever the request and whatever the upstream does. *)
Theorem handler_status_codes {St : Type}
    (respond : forall e : Event, St -> Answer e * St) (st : St)
    (key : option string) (request : NextRequest) :
  exists response,
    outcome (run respond (POST key request) st) = Returned response
    /\ (response_status response = 200%Z \/ response_status response = 400%Z
        \/ response_status response = 404%Z \/ response_status response = 500%Z).
Proof.
  destruct (POST_cases respond st key request)
    as [[_ H] | [[_ [e [_ [H _]]]] | [[_ [body [_ [_ [_ H]]]]] | [_ [body H]]]]].
  - rewrite H. eexists. split; [reflexivity |]. cbn. auto.
  - rewrite H. eexists. split; [reflexivity |]. cbn. auto.
  - rewrite H. eexists. split; [reflexivity |]. cbn. auto.
  - destruct H as [_ [_ [_ [_ [[places [_ [H _]]] | [e [_ [H _]]]]]]]]; rewrite H.
    + eexists. split; [reflexivity |].
      destruct (List.length places =? 0)%nat; cbn; auto.
    + eexists. split; [reflexivity |]. cbn. auto.
Qed.

(** X2. A response with a spreadsheet body has status 200; the spreadsheet
    holds the rows of a non-empty collection returned by the aggregation,
    and the header [X-Results-Count] is the decimal number of its data
    rows; no call is made beyond those of the aggregation. *)
Theorem spreadsheet_response_counts_rows {St : Type}
    (respond : forall e : Event, St -> Answer e * St) (st : St)
    (key : option string) (request : NextRequest)
    (body : Buffer) (status : Z) (headers : list (string * string)) :
  outcome (run respond (POST key request) st)
    = Returned (NextResponse_new body status headers) ->
  status = 200%Z
  /\ rows body <> []
  /\ In ("X-Results-Count", length_toString (List.length (rows body))) headers
  /\ exists parsed places,
       json request = Resolved parsed
       /\ outcome (run respond (aggregation parsed key) st) = Returned places
       /\ body = generateExcel places
       /\ trace (run respond (POST key request) st)
          = trace (run respond (aggregation parsed key) st).
Proof.
  intros Hout.
  destruct (POST_cases respond st key request)
    as [[_ H] | [[_ [e [_ [H _]]]] | [[_ [parsed [_ [_ [_ H]]]]] | [_ [parsed H]]]]];
    try (rewrite H in Hout; discriminate).
  destruct H as [Hjson [_ [_ [_ [[places [Hagg [H Ht]]] | [e [_ [H _]]]]]]]];
    rewrite H in Hout; [| discriminate].
  destruct places as [| place places]; [discriminate |].
  cbn [List.length Nat.eqb] in Hout. unfold success in Hout.
  injection Hout as <- <- <-.
  split; [reflexivity |]. split; [discriminate |]. split.
  - cbn [rows generateExcel]. rewrite length_map. cbn. auto.
  - exists parsed, (place :: places). repeat split; assumption.
Qed.

(** X3. Status 400 is only ever the InvalidInput answer: it is given with
    the credential configured, a parsed body and an empty or missing field,
    and before any call; no upstream failure is reported as 400. *)
Theorem status_400_only_for_empty_field {St : Type}
    (respond : forall e : Event, St -> Answer e * St) (st : St)
    (key : option string) (request : NextRequest) (response : NextResponse) :
  outcome (run respond (POST key request) st) = Returned response ->
  response_status response = 400%Z ->
  response = invalid_input
  /\ trace (run respond (POST key request) st) = []
  /\ truthy_opt_string key = true
  /\ exists body,
       json request = Resolved body /\ body <> JNull
       /\ (truthy_opt (get body "serviceType") = false
           \/ truthy_opt (get body "location") = false).
Proof.
  intros Hout Hstatus.
  destruct (POST_cases respond st key request)
    as [[_ H] | [[_ [e [_ [H _]]]] | [[Hkey [body [Hjson [Hnull [Hf H]]]]] | [_ [body H]]]]].
  - rewrite H in Hout. injection Hout as <-. discriminate Hstatus.
  - rewrite H in Hout. injection Hout as <-. discriminate Hstatus.
  - rewrite H in Hout |- *. injection Hout as <-.
    split; [reflexivity |]. split; [reflexivity |]. split; [exact Hkey |].
    exists body. auto.
  - destruct H as [_ [_ [_ [_ [[places [_ [H _]]] | [e [_ [H _]]]]]]]];
      rewrite H in Hout; injection Hout as <-.
    + destruct (List.length places =? 0)%nat; discriminate Hstatus.
    + discriminate Hstatus.
Qed.

(** X4. Status 404 is only ever the NoResults answer, given when the
    aggregation of a valid request returned an empty collection; a search
    that failed is never reported as 404. *)
Theorem status_404_only_for_empty_result {St : Type}
    (respond : forall e : Event, St -> Answer e * St) (st : St)
    (key : option string) (request : NextRequest) (response : NextResponse) :
  outcome (run respond (POST key request) st) = Returned response ->
  response_status response = 404%Z ->
  response = no_results
  /\ exists body,
       json request = Resolved body
       /\ outcome (run respond (aggregation body key) st) = Returned [].
Proof.
  intros Hout Hstatus.
  destruct (POST_cases respond st key request)
    as [[_ H] | [[_ [e [_ [H _]]]] | [[_ [body [_ [_ [_ H]]]]] | [_ [body H]]]]].
  - rewrite H in Hout. injection Hout as <-. discriminate Hstatus.
  - rewrite H in Hout. injection Hout as <-. discriminate Hstatus.
  - rewrite H in Hout. injection Hout as <-. discriminate Hstatus.
  - destruct H as [Hjson [_ [_ [_ [[places [Hagg [H _]]] | [e [_ [H _]]]]]]]];
      rewrite H in Hout; injection Hout as <-.
    + destruct places as [| place places]; [| discriminate Hstatus].
      split; [reflexivity |]. exists body. split; assumption.
    + discriminate Hstatus.
Qed.

(** X5. For a valid request with the credential configured the handler
    issues exactly the calls of the aggregation.  If the aggregation returns
    places, the answer is NoResults when there is none and the spreadsheet
    response otherwise; if it throws, the error is logged once and the
    answer has status 500 with the error's message. *)
Theorem handler_follows_aggregation {St : Type}
    (respond : forall e : Event, St -> Answer e * St) (st : St)
    (key : option string) (request : NextRequest) (body : JSON) :
  truthy_opt_string key = true ->
  json request = Resolved body ->
  body <> JNull ->
  truthy_opt (get body "serviceType") = true ->
  truthy_opt (get body "location") = true ->
  (exists places,
      outcome (run respond (aggregation body key) st) = Returned places
      /\ outcome (run respond (POST key request) st)
         = Returned (match places with [] => no_results | _ => success places end)
      /\ trace (run respond (POST key request) st)
         = trace (run respond (aggregation body key) st))
  \/ (exists e,
        outcome (run respond (aggregation body key) st) = Threw e
        /\ outcome (run respond (POST key request) st)
           = Returned (NextResponse_json (errorMessage e) 500)
        /\ trace (run respond (POST key request) st)
           = (trace (run respond (aggregation body key) st)
              ++ [ConsoleError handled_log e])%list).
Proof.
  intros Hkey Hjson Hnull Hs Hl.
  destruct (POST_cases respond st key request)
    as [[H _] | [[_ [e [[H | H] _]]] | [[_ [b [Hb [_ [Hf _]]]]] | [_ [b [Hb H]]]]]].
  - rewrite Hkey in H. discriminate.
  - rewrite Hjson in H. discriminate.
  - rewrite Hjson in H. injection H as ->. contradiction.
  - rewrite Hjson in Hb. injection Hb as <-.
    rewrite Hs, Hl in Hf. destruct Hf; discriminate.
  - rewrite Hjson in Hb. injection Hb as <-.
    destruct H as [_ [_ [_ [[places [Hagg [H Ht]]] | [e [Hagg [H Ht]]]]]]].
    + left. exists places. split; [exact Hagg |]. split; [| exact Ht].
      rewrite H. destruct places; reflexivity.
    + right. exists e. auto.
Qed.

(** ** Further properties of the aggregation *)

Section Aggregation.
Context {St : Type}.
Variable respond : forall e : Event, St -> Answer e * St.

Lemma count_bind (f : Event -> bool) {A B} (p : Prog A) (g : A -> Prog B) (st : St) :
  count f (trace (run respond (bind p g) st)) =
  count f (trace (run respond p st))
  + match outcome (run respond p st) with
    | Returned a => count f (trace (run respond (g a) (final (run respond p st))))
    | _ => 0
    end.
Proof.
  rewrite run_bind_trace.
  destruct (outcome (run respond p st)); [apply count_app | lia | lia].
Qed.

Lemma silent_run (f : Event -> bool) {A} (p : Prog A) (st : St) :
  calls_at_most f 0 p -> count f (trace (run respond p st)) = 0.
Proof.
  intros H. pose proof (calls_at_most_run respond f p 0 st H). lia.
Qed.

Lemma every_call_run (Q : Event -> Prop) {A} (p : Prog A) :
  every_call Q p -> forall st, Forall Q (trace (run respond p st)).
Proof.
  induction p as [a | e | | e k IH]; intros H st; simpl; try constructor.
  destruct H as [He Hk]. destruct (respond e st) as [x st']. simpl.
  constructor; [exact He | apply IH, Hk].
Qed.

Lemma page_delay_run (nextPageToken : option string) (st : St) :
  outcome (run respond (if truthy_opt_string nextPageToken
                        then sleep 2000 else Ret tt) st) = Returned tt
  /\ count is_delay
       (trace (run respond (if truthy_opt_string nextPageToken
                            then sleep 2000 else Ret tt) st))
     = (if truthy_opt_string nextPageToken then 1 else 0)
  /\ count is_geocode
       (trace (run respond (if truthy_opt_string nextPageToken
                            then sleep 2000 else Ret tt) st)) = 0
  /\ count is_details
       (trace (run respond (if truthy_opt_string nextPageToken
                            then sleep 2000 else Ret tt) st)) = 0.
Proof.
  destruct (truthy_opt_string nextPageToken); cbn.
  - destruct (respond (SetTimeout 2000) st) as [[] st']. cbn. auto.
  - auto.
Qed.

Lemma searchPlaces_counts (serviceType : Component) (location apiKey : string)
    (pageToken : option string) (st : St) :
  count is_geocode
    (trace (run respond (searchPlaces serviceType location apiKey pageToken) st)) = 1
  /\ count is_delay
       (trace (run respond (searchPlaces serviceType location apiKey pageToken) st)) = 0
  /\ count is_details
       (trace (run respond (searchPlaces serviceType location apiKey pageToken) st)) = 0.
Proof.
  destruct (searchPlaces_run respond serviceType location apiKey pageToken st)
    as [[Ht _] | [lat [lng [keyword [_ [Ht _]]]]]]; rewrite Ht; cbn; auto.
Qed.

Lemma searchPlaces_no_details (serviceType location : Component) (apiKey : string)
    (pageToken : option string) (st : St) :
  count is_details
    (trace (run respond (searchPlaces serviceType location apiKey pageToken) st)) = 0.
Proof.
  apply silent_run. search_paths.
Qed.

Lemma filter_bind (f : Event -> bool) {A B} (p : Prog A) (g : A -> Prog B) (st : St) :
  filter f (trace (run respond (bind p g) st)) =
  (filter f (trace (run respond p st))
   ++ match outcome (run respond p st) with
      | Returned a => filter f (trace (run respond (g a) (final (run respond p st))))
      | _ => []
      end)%list.
Proof.
  rewrite run_bind_trace.
  destruct (outcome (run respond p st));
    [apply filter_app | rewrite app_nil_r; reflexivity | rewrite app_nil_r; reflexivity].
Qed.

Lemma silent_filter (f : Event -> bool) (t : list Event) :
  count f t = 0 -> filter f t = [].
Proof.
  unfold count. apply length_zero_iff_nil.
Qed.

(** A page: every record is returned, after one detail lookup each, in
    record order. *)
Lemma page_run (apiKey : string) (items : list Search.Item) :
  forall st,
    exists detailedResults,
      outcome (run respond (Promise_all (map (detailed apiKey) items)) st)
      = Returned detailedResults
      /\ filter is_details
           (trace (run respond (Promise_all (map (detailed apiKey) items)) st))
         = map (lookup_of apiKey) detailedResults.
Proof.
  induction items as [| place items IH]; intros st.
  - exists []. cbn. auto.
  - cbn [map Promise_all]. rewrite run_bind_outcome, filter_bind.
    assert (Hone : exists p,
               outcome (run respond (detailed apiKey place) st) = Returned p
               /\ filter is_details (trace (run respond (detailed apiKey place) st))
                  = [lookup_of apiKey p]).
    { unfold detailed, getPlaceDetails, axios_get_details. cbn.
      destruct (respond (PlaceDetailsGet _) st) as [[details | e] st1]; cbn.
      - eexists. split; reflexivity.
      - destruct (respond (ConsoleError _ _) st1) as [[] st2]; cbn.
        eexists. split; reflexivity. }
    destruct Hone as [p [Hp Hc]]. rewrite Hp, Hc, run_bind_outcome, filter_bind.
    destruct (IH (final (run respond (detailed apiKey place) st)))
      as [ps [Hps Hcalls]].
    rewrite Hps, Hcalls. exists (p :: ps). cbn. rewrite app_nil_r. auto.
Qed.

Lemma getAllPlaces_loop_delays :
  forall fuel serviceType (location : string) apiKey allResults nextPageToken
         currentPage st,
    maxPages <= fuel + currentPage -> 1 <= fuel ->
    count is_delay
      (trace (run respond (getAllPlaces_loop fuel serviceType location apiKey
                             allResults nextPageToken currentPage) st))
    + (if truthy_opt_string nextPageToken then 0 else 1)
    = count is_geocode
        (trace (run respond (getAllPlaces_loop fuel serviceType location apiKey
                               allResults nextPageToken currentPage) st)).
Proof.
  induction fuel as [| fuel IH]; intros s l k acc tok cp st Hsum Hpos; [lia |].
  rewrite getAllPlaces_loop_S, !count_bind.
  destruct (page_delay_run tok st) as [Ho [Hd [Hg _]]].
  rewrite Ho, Hd, Hg, ?count_bind.
  set (st1 := final (run respond (if truthy_opt_string tok
                                  then sleep 2000 else Ret tt) st)).
  destruct (searchPlaces_counts s l k tok st1) as [Hsg [Hsd _]].
  rewrite Hsg, Hsd.
  destruct (outcome (run respond (searchPlaces s l k tok) st1)) as [response | e |];
    try (destruct (truthy_opt_string tok); lia).
  set (st2 := final (run respond (searchPlaces s l k tok) st1)).
  destruct (negb (Search.status response =? "OK"));
    [cbn; destruct (truthy_opt_string tok); lia |].
  rewrite !count_bind.
  rewrite (silent_run is_delay), (silent_run is_geocode);
    try (apply Promise_all_calls; apply Forall_forall; intros p Hp;
         apply in_map_iff in Hp; destruct Hp as [place [<- _]];
         apply detailed_calls; reflexivity).
  destruct (outcome (run respond
                       (Promise_all (map (detailed k) (Search.results response))) st2))
    as [detailedResults | e |]; try (destruct (truthy_opt_string tok); lia).
  destruct (truthy_opt_string (Search.next_page_token response)) eqn:Htok;
    [| cbn; destruct (truthy_opt_string tok); lia].
  destruct (Nat.ltb_spec (S cp) maxPages) as [Hlt | Hge];
    [| cbn; destruct (truthy_opt_string tok); lia].
  cbn [andb].
  match goal with
  | |- context [run respond (getAllPlaces_loop fuel s _ k ?a ?t ?c) ?x] =>
      pose proof (IH s l k a t c x) as Hrec
  end.
  rewrite Htok in Hrec.
  assert (H1 : maxPages <= fuel + S cp) by lia.
  assert (H2 : 1 <= fuel) by lia.
  specialize (Hrec H1 H2).
  destruct (truthy_opt_string tok); lia.
Qed.

Lemma getAllPlaces_loop_details :
  forall fuel serviceType location apiKey allResults nextPageToken currentPage st places,
    outcome (run respond (getAllPlaces_loop fuel serviceType location apiKey
                            allResults nextPageToken currentPage) st)
    = Returned places ->
    exists more,
      places = (allResults ++ more)%list
      /\ filter is_details
           (trace (run respond (getAllPlaces_loop fuel serviceType location apiKey
                                  allResults nextPageToken currentPage) st))
         = map (lookup_of apiKey) more.
Proof.
  induction fuel as [| fuel IH]; intros s l k acc tok cp st places; [discriminate |].
  rewrite getAllPlaces_loop_S, !run_bind_outcome, !filter_bind.
  destruct (page_delay_run tok st) as [Ho [_ [_ Hd]]].
  rewrite Ho, (silent_filter _ _ Hd), ?run_bind_outcome, ?filter_bind.
  set (st1 := final (run respond (if truthy_opt_string tok
                                  then sleep 2000 else Ret tt) st)).
  pose proof (searchPlaces_no_details s l k tok st1) as Hsd.
  rewrite (silent_filter _ _ Hsd).
  destruct (outcome (run respond (searchPlaces s l k tok) st1)) as [response | e |];
    try discriminate.
  set (st2 := final (run respond (searchPlaces s l k tok) st1)).
  destruct (negb (Search.status response =? "OK")); [discriminate |].
  rewrite !run_bind_outcome, !filter_bind.
  destruct (page_run k (Search.results response) st2) as [drs [Hdrs Hcalls]].
  rewrite Hdrs, Hcalls.
  destruct (truthy_opt_string (Search.next_page_token response)
            && (S cp <? maxPages)%nat).
  - intros H. apply IH in H. destruct H as [more [-> Hmore]].
    exists (drs ++ more)%list. rewrite Hmore, app_assoc, map_app. auto.
  - cbn. intros H. injection H as <-. exists drs. rewrite app_nil_r. auto.
Qed.

End Aggregation.

Lemma every_call_bind (Q : Event -> Prop) {A B} (p : Prog A) (g : A -> Prog B) :
  every_call Q p -> (forall a, every_call Q (g a)) -> every_call Q (bind p g).
Proof.
  induction p as [a | e | | e k IH]; intros Hp Hg; simpl in *; auto.
  destruct Hp as [He Hk]. split; auto.
Qed.

Lemma every_call_try_catch (Q : Event -> Prop) {A} (p : Prog A)
    (h : Thrown -> Prog A) :
  every_call Q p -> (forall e, every_call Q (h e)) -> every_call Q (try_catch p h).
Proof.
  induction p as [a | e | | e k IH]; intros Hp Hh; simpl in *; auto.
  destruct Hp as [He Hk]. split; auto.
Qed.

Lemma getAllPlaces_loop_every_call :
  forall fuel serviceType (location : string) apiKey allResults nextPageToken
         currentPage,
    every_call (aggregation_call location apiKey)
      (getAllPlaces_loop fuel serviceType location apiKey
         allResults nextPageToken currentPage).
Proof.
  induction fuel as [| fuel IH]; intros s l k acc tok cp; [exact I |].
  rewrite getAllPlaces_loop_S.
  apply every_call_bind.
  { destruct (truthy_opt_string tok); cbn; auto. }
  intros _. apply every_call_bind.
  { unfold searchPlaces, uri_component, axios_get_geocode, axios_get_nearbysearch.
    cbn.
    split; [reflexivity |]. intros [geo | e]; cbn; auto.
    destruct (geocode_rejected geo); cbn; auto.
    destruct (Geocode.results geo) as [| first others]; cbn; auto.
    destruct s as [keyword | uri]; cbn; auto.
    split; [exact I |]. intros [page | e]; cbn; auto. }
  intros response.
  destruct (negb (Search.status response =? "OK")); [exact I |].
  apply every_call_bind.
  { induction (Search.results response) as [| place items IHitems]; [exact I |].
    cbn [map Promise_all]. apply every_call_bind.
    - unfold detailed, getPlaceDetails, axios_get_details. cbn.
      split; [eexists; reflexivity |]. intros [d | e]; cbn; auto.
    - intros p. apply every_call_bind; [exact IHitems | intros; exact I]. }
  intros detailedResults.
  destruct (truthy_opt_string (Search.next_page_token response)
            && (S cp <? maxPages)%nat); [apply IH | exact I].
Qed.

(** X6. In an aggregation whose location can be escaped, there is exactly
    one delay between two page fetches and none before the first: the delays
    number one less than the geocoding calls.  Every delay lasts 2000 ms,
    every geocoding call is for the request's location and key, and every
    detail lookup is a details URL with the request's key.  An aggregation
    whose location cannot be escaped throws what the escaping throws, with
    no delay and no call. *)
Theorem one_delay_between_page_fetches {St : Type}
    (respond : forall e : Event, St -> Answer e * St) (st : St)
    (serviceType location : Component) (apiKey : string) :
  match location with
  | Escapes address =>
      count is_delay
        (trace (run respond (getAllPlaces serviceType location apiKey) st)) + 1
      = count is_geocode
          (trace (run respond (getAllPlaces serviceType location apiKey) st))
      /\ Forall (aggregation_call address apiKey)
           (trace (run respond (getAllPlaces serviceType location apiKey) st))
  | Throws e =>
      run respond (getAllPlaces serviceType location apiKey) st
      = {| trace := []; outcome := Threw e; final := st |}
  end.
Proof.
  destruct location as [address | e]; [| reflexivity].
  split.
  - unfold getAllPlaces.
    pose proof (@getAllPlaces_loop_delays St respond maxPages serviceType address
                  apiKey [] None 0 st) as H.
    cbn [truthy_opt_string] in H. apply H; unfold maxPages; lia.
  - apply every_call_run. apply getAllPlaces_loop_every_call.
Qed.

(** X7. An aggregation that returns has issued exactly the detail lookups
    of the places it returns, one for each and in their order. *)
Theorem one_detail_lookup_per_place {St : Type}
    (respond : forall e : Event, St -> Answer e * St) (st : St)
    (serviceType location apiKey : string) (places : list Place.t) :
  outcome (run respond (getAllPlaces serviceType location apiKey) st)
    = Returned places ->
  filter is_details (trace (run respond (getAllPlaces serviceType location apiKey) st))
  = map (fun p => PlaceDetailsGet (details_url (Place.place_id p) apiKey)) places
  /\ count is_details
       (trace (run respond (getAllPlaces serviceType location apiKey) st))
     = List.length places.
Proof.
  intros H. apply getAllPlaces_loop_details in H.
  destruct H as [more [-> Hcalls]]. cbn [app].
  unfold count, getAllPlaces. rewrite Hcalls, length_map. split; reflexivity.
Qed.

(** X8. When the geocoder rejects the location (the call fails, the status
    is not OK, or there is no candidate), the aggregation stops after that
    single call: no search, no detail lookup, and the error thrown is the
    call's own or the location-not-found error. *)
Theorem unknown_location_stops_at_geocoding {St : Type}
    (respond : forall e : Event, St -> Answer e * St) (st st' : St)
    (serviceType location apiKey : string)
    (answered : Settled Geocode.Response) :
  respond (GeocodeGet (geocode_url location apiKey)) st = (answered, st') ->
  (forall geo, answered = Resolved geo -> geocode_rejected geo = true) ->
  run respond (getAllPlaces serviceType location apiKey) st
  = {| trace := [GeocodeGet (geocode_url location apiKey)];
       outcome := Threw (match answered with
                         | Resolved _ => location_not_found
                         | Rejected e => e
                         end);
       final := st' |}.
Proof.
  intros Hans Hrej.
  unfold getAllPlaces, maxPages. rewrite getAllPlaces_loop_S.
  cbn [truthy_opt_string bind]. unfold searchPlaces, uri_component, axios_get_geocode.
  cbn [bind run]. rewrite Hans.
  destruct answered as [geo | e]; cbn [await bind].
  - rewrite (Hrej geo eq_refl). reflexivity.
  - reflexivity.
Qed.

(** ** A page that fails *)

Lemma pages_then_failure (u : Upstream) (serviceType location apiKey : string)
    (geo : Geocode.Response) (first : Geocode.Result) (bad : Search.Response) :
  geocode_api u (geocode_url location apiKey) = Resolved geo ->
  Geocode.status geo = "OK" ->
  nth_error (Geocode.results geo) 0 = Some first ->
  Search.status bad <> "OK" ->
  forall pages fuel nextPageToken currentPage,
    served u apiKey
      (search_url (Geocode.lat (Geocode.location (Geocode.geometry first)))
         (Geocode.lng (Geocode.location (Geocode.geometry first)))
         serviceType apiKey nextPageToken) (pages ++ [bad]) ->
    Forall (fun page => Search.status page = "OK") pages ->
    List.length pages < fuel ->
    fuel + currentPage = maxPages ->
    pages_fetched u fuel serviceType location apiKey nextPageToken currentPage
    = Threw (places_api_error (Search.status bad)).
Proof.
  intros Hgeo Hstatus Hfirst Hbad.
  apply String.eqb_neq in Hbad.
  induction pages as [| page rest IH]; intros fuel tok cp Hserved Hok Hlen Hsum;
    (destruct fuel as [| fuel]; [simpl in Hlen; lia |]);
    cbn [pages_fetched];
    rewrite (@exec_searchPlaces u serviceType location apiKey tok geo first
               Hgeo Hstatus Hfirst).
  - destruct Hserved as [Hpage _]. rewrite Hpage, Hbad. reflexivity.
  - change ((page :: rest) ++ [bad])%list with (page :: (rest ++ [bad]))%list in Hserved.
    destruct Hserved as [Hpage Hrest]. rewrite Hpage.
    inversion Hok as [| ? ? Hst Hok']; subst. rewrite Hst.
    change ("OK" =? "OK") with true. cbn [negb].
    destruct (rest ++ [bad])%list as [| next more] eqn:E.
    { apply app_eq_nil in E. destruct E as [_ E]. discriminate. }
    destruct Hrest as [token [Htok [Htruthy Hrest]]].
    assert (Hcp : (S cp <? maxPages)%nat = true).
    { apply Nat.ltb_lt. simpl in Hlen. lia. }
    rewrite Htok. cbn [truthy_opt_string]. rewrite Htruthy, Hcp. cbn [andb].
    rewrite (IH fuel (Some token) (S cp)); try reflexivity.
    + rewrite search_url_token by exact Htruthy. exact Hrest.
    + exact Hok'.
    + simpl in Hlen. lia.
    + lia.
Qed.

Lemma request_of_run {St : Type} (respond : forall e : Event, St -> Answer e * St)
    (st : St) (serviceType location apiKey : string) (e : Thrown) :
  truthy_string serviceType = true ->
  truthy_string location = true ->
  truthy_string apiKey = true ->
  outcome (run respond (getAllPlaces serviceType location apiKey) st) = Threw e ->
  outcome (run respond (POST (Some apiKey) (request_of serviceType location)) st)
  = Returned (NextResponse_json (errorMessage e) 500).
Proof.
  intros Hs Hl Hk Hagg.
  destruct (POST_cases respond st (Some apiKey) (request_of serviceType location))
    as [[H _] | [[_ [e' [[H | H] _]]] | [[_ [b [Hb [_ [Hf _]]]]] | [_ [b [Hb H]]]]]].
  - cbn in H. rewrite Hk in H. discriminate.
  - discriminate.
  - discriminate.
  - injection Hb as <-. cbn in Hf. rewrite Hs, Hl in Hf. destruct Hf; discriminate.
  - injection Hb as <-.
    destruct H as [_ [_ [_ [[places [Hret _]] | [e' [Hthrew [H _]]]]]]].
    + assert (Hc : outcome (run respond (getAllPlaces serviceType location apiKey) st)
                   = Returned places) by exact Hret.
      rewrite Hagg in Hc. discriminate.
    + assert (Hc : outcome (run respond (getAllPlaces serviceType location apiKey) st)
                   = Threw e') by exact Hthrew.
      rewrite Hagg in Hc. injection Hc as <-. exact H.
Qed.

(** X9. When a page of the search has a status other than OK, the
    aggregation throws the error naming that status, whatever the pages
    before it held: no record is returned.  The handler answers a valid
    request with status 500 and that message, so a search the upstream
    answers with ZERO_RESULTS is reported as 500 and not as NoResults. *)
Theorem failed_page_aborts_search (u : Upstream)
    (serviceType location apiKey : string)
    (geo : Geocode.Response) (first : Geocode.Result)
    (pages : list Search.Response) (bad : Search.Response) :
  geocode_api u (geocode_url location apiKey) = Resolved geo ->
  Geocode.status geo = "OK" ->
  nth_error (Geocode.results geo) 0 = Some first ->
  served u apiKey
    (nearby_url (Geocode.lat (Geocode.location (Geocode.geometry first)))
       (Geocode.lng (Geocode.location (Geocode.geometry first)))
       serviceType apiKey) (pages ++ [bad]) ->
  Forall (fun page => Search.status page = "OK") pages ->
  Search.status bad <> "OK" ->
  List.length pages < maxPages ->
  truthy_string serviceType = true ->
  truthy_string location = true ->
  truthy_string apiKey = true ->
  outcome (exec u (getAllPlaces serviceType location apiKey))
  = Threw (Error ("Erro na API do Google Places: " ++ Search.status bad))
  /\ outcome (exec u (POST (Some apiKey) (request_of serviceType location)))
     = Returned (NextResponse_json
                   ("Erro na API do Google Places: " ++ Search.status bad) 500).
Proof.
  intros Hgeo Hstatus Hfirst Hserved Hok Hbad Hlen Hs Hl Hk.
  assert (Hagg : outcome (exec u (getAllPlaces serviceType location apiKey))
                 = Threw (places_api_error (Search.status bad))).
  { unfold getAllPlaces. rewrite getAllPlaces_loop_outcome.
    rewrite (@pages_then_failure u serviceType location apiKey geo first bad
               Hgeo Hstatus Hfirst Hbad pages maxPages None 0);
      auto. }
  split; [exact Hagg |].
  apply (request_of_run (answer u) tt serviceType location apiKey Hs Hl Hk Hagg).
Qed.

(** ** The fields of the places returned *)





(** ** The derived cells of a row *)

(** X11. In every exported row the has-website flag agrees with the
    website column: "Sim" with the place's non-empty website in the column,
    or "Não" with "N/A" in the column when the website is missing or
    empty. *)
Theorem website_flag_matches_site_column (places : list Place.t) :
  Forall2
    (fun place row =>
       (Row.has_website row = CellString "Sim"
        /\ exists w, Place.website place = Some w /\ w <> ""
                     /\ Row.website row = CellString w)
       \/ (Row.has_website row = CellString "Não"
           /\ Row.website row = CellString "N/A"
           /\ (Place.website place = None \/ Place.website place = Some "")))
    places (rows (generateExcel places)).
Proof.
  cbn [rows generateExcel].
  induction places as [| place places IH]; cbn [map]; constructor; [| exact IH].
  cbn [addRow Row.has_website Row.website].
  destruct (Place.website place) as [w |]; cbn.
  - unfold or_string, truthy_string. destruct w as [| c w]; cbn.
    + right. auto.
    + left. split; [reflexivity |]. eexists. repeat split. discriminate.
  - right. auto.
Qed.

(** X12. In every exported row the website, phone, business-type and
    has-website cells are non-empty strings; the rating cell is "N/A" or a
    number that is neither zero nor NaN (a rating of zero shows "N/A"); the
    rating-count cell is always a number. *)
Theorem derived_cells_well_formed (places : list Place.t) :
  Forall
    (fun row =>
       (forall cell,
           In cell [Row.website row; Row.phone row;
                    Row.business_type row; Row.has_website row] ->
           exists text, cell = CellString text /\ text <> "")
       /\ (Row.rating row = CellString "N/A"
           \/ exists r, Row.rating row = CellNumber r /\ truthy_number r = true)
       /\ exists n, Row.ratings_count row = CellNumber n)
    (rows (generateExcel places)).
Proof.
  cbn [rows generateExcel]. apply Forall_forall. intros row Hrow.
  apply in_map_iff in Hrow. destruct Hrow as [place [<- _]].
  assert (Hor : forall a d, d <> "" -> or_string a d <> "").
  { intros a d Hd. unfold or_string. destruct (truthy_string a) eqn:E; [| exact Hd].
    intros H. rewrite H in E. discriminate. }
  assert (Hopt : forall a d, d <> "" -> or_opt_string a d <> "").
  { intros [a |] d Hd; cbn; [apply Hor, Hd | exact Hd]. }
  split; [| split].
  - intros cell [<- | [<- | [<- | [<- | []]]]]; cbn; eexists; split; try reflexivity.
    + apply Hopt. discriminate.
    + apply Hopt. discriminate.
    + apply Hor. discriminate.
    + destruct (truthy_opt_string (Place.website place)); discriminate.
  - cbn. destruct (Place.rating place) as [r |]; [| left; reflexivity].
    destruct (truthy_number r) eqn:E; [right; eauto | left; reflexivity].
  - cbn. destruct (Place.user_ratings_total place) as [n |]; [| eauto].
    destruct (truthy_number n); eauto.
Qed.

(** ** The text escaped into a URL *)

Lemma string_length_app (a b : string) :
  String.length (a ++ b) = String.length a + String.length b.
Proof.
  induction a as [| x a IH]; cbn; [reflexivity | rewrite IH; reflexivity].
Qed.

Lemma append_inv_head (p a b : string) : p ++ a = p ++ b -> a = b.
Proof.
  induction p as [| x p IH]; cbn; intros H; [exact H |].
  injection H as H. apply IH, H.
Qed.

Lemma append_inv_tail (c : string) : forall a b : string, a ++ c = b ++ c -> a = b.
Proof.
  induction a as [| x a IH]; intros [| y b] H; cbn in H.
  - reflexivity.
  - apply (f_equal String.length) in H. cbn in H.
    rewrite string_length_app in H. lia.
  - apply (f_equal String.length) in H. cbn in H.
    rewrite string_length_app in H. lia.
  - injection H as -> H. rewrite (IH b H). reflexivity.
Qed.

Lemma list_ascii_app (a b : string) :
  list_ascii_of_string (a ++ b)
  = (list_ascii_of_string a ++ list_ascii_of_string b)%list.
Proof.
  induction a as [| x a IH]; cbn; [reflexivity | rewrite IH; reflexivity].
Qed.

Lemma contains_char_In (x : ascii) (s : string) :
  contains (String x EmptyString) s = true -> In x (list_ascii_of_string s).
Proof.
  induction s as [| a s IH]; [discriminate |].
  rewrite contains_char_cons. intros H. apply orb_true_iff in H.
  cbn [list_ascii_of_string]. destruct H as [H | H].
  - left. apply Ascii.eqb_eq in H. symmetry. exact H.
  - right. apply IH, H.
Qed.

Lemma escape_digits (c : ascii) :
  unreserved (hex_digit (nat_of_ascii c / 16)) = true
  /\ unreserved (hex_digit (nat_of_ascii c mod 16)) = true
  /\ unescape (hex_digit (nat_of_ascii c / 16)) (hex_digit (nat_of_ascii c mod 16)) = c.
Proof.
  destruct c as [[|] [|] [|] [|] [|] [|] [|] [|]]; vm_compute; repeat split.
Qed.

Lemma encodeURIComponent_cons (c : ascii) (rest : string) :
  encodeURIComponent (String c rest)
  = (if unreserved c then String c EmptyString else percent_encode c)
    ++ encodeURIComponent rest.
Proof. reflexivity. Qed.

Lemma encodeURIComponent_chars (s : string) :
  Forall (fun c => unreserved c = true \/ c = "%"%char)
    (list_ascii_of_string (encodeURIComponent s)).
Proof.
  induction s as [| c s IH]; [constructor |].
  rewrite encodeURIComponent_cons, list_ascii_app. apply Forall_app. split; [| exact IH].
  destruct (unreserved c) eqn:E.
  - cbn. constructor; [left; exact E | constructor].
  - destruct (escape_digits c) as [H1 [H2 _]].
    unfold percent_encode. cbn [list_ascii_of_string].
    constructor; [right; reflexivity |].
    constructor; [left; exact H1 |].
    constructor; [left; exact H2 | constructor].
Qed.

Lemma encodeURIComponent_injective :
  forall s t, encodeURIComponent s = encodeURIComponent t -> s = t.
Proof.
  induction s as [| c s IH]; intros [| d t] H.
  - reflexivity.
  - rewrite encodeURIComponent_cons in H.
    destruct (unreserved d); unfold percent_encode in H; cbn [append] in H;
      discriminate.
  - rewrite encodeURIComponent_cons in H.
    destruct (unreserved c); unfold percent_encode in H; cbn [append] in H;
      discriminate.
  - rewrite !encodeURIComponent_cons in H.
    destruct (unreserved c) eqn:Ec; destruct (unreserved d) eqn:Ed;
      unfold percent_encode in H; cbn [append] in H.
    + injection H as -> H. rewrite (IH t H). reflexivity.
    + injection H as -> _. vm_compute in Ec. discriminate.
    + injection H as <- _. vm_compute in Ed. discriminate.
    + injection H as H1 H2 H.
      destruct (escape_digits c) as [_ [_ Hc]].
      destruct (escape_digits d) as [_ [_ Hd]].
      assert (Hcd : c = d).
      { rewrite <- Hc, <- Hd. f_equal; [exact H1 | exact H2]. }
      rewrite Hcd, (IH t H). reflexivity.
Qed.

(** X13. The escaped form of a location or keyword holds only unreserved
    characters and percent signs; it never holds an ampersand, an equals
    sign, a question mark, a hash, a slash or a space, so the text of a
    request cannot add or end a parameter of the geocoding or search URL. *)
Theorem escaped_text_is_inert (s : string) :
  Forall (fun c => unreserved c = true \/ c = "%"%char)
    (list_ascii_of_string (encodeURIComponent s))
  /\ contains "&" (encodeURIComponent s) = false
  /\ contains "=" (encodeURIComponent s) = false
  /\ contains "?" (encodeURIComponent s) = false
  /\ contains "#" (encodeURIComponent s) = false
  /\ contains "/" (encodeURIComponent s) = false
  /\ contains " " (encodeURIComponent s) = false.
Proof.
  pose proof (encodeURIComponent_chars s) as Hall.
  split; [exact Hall |].
  rewrite Forall_forall in Hall.
  assert (Hno : forall x, unreserved x = false -> x <> "%"%char ->
                          contains (String x EmptyString) (encodeURIComponent s) = false).
  { intros x Hx Hp.
    destruct (contains (String x EmptyString) (encodeURIComponent s)) eqn:E;
      [| reflexivity].
    apply contains_char_In in E. destruct (Hall x E) as [H | H].
    - rewrite H in Hx. discriminate.
    - contradiction. }
  repeat split; apply Hno; (reflexivity || discriminate).
Qed.

(** X14. Escaping loses nothing: two locations with the same geocoding URL
    are the same location, and two keywords with the same search URL are the
    same keyword. *)
Theorem urls_determine_their_text (apiKey : string) :
  (forall location location',
      geocode_url location apiKey = geocode_url location' apiKey ->
      location = location')
  /\ (forall lat lng serviceType serviceType',
        nearby_url lat lng serviceType apiKey = nearby_url lat lng serviceType' apiKey ->
        serviceType = serviceType').
Proof.
  split.
  - intros l l' H. unfold geocode_url in H.
    apply append_inv_head, append_inv_tail in H.
    apply encodeURIComponent_injective, H.
  - intros lat lng s s' H. unfold nearby_url in H.
    do 5 apply append_inv_head in H. apply append_inv_tail in H.
    apply encodeURIComponent_injective, H.
Qed.

(** ** The search form *)

(** X15. Whatever the server does, a submission leaves the form not
    loading and with exactly one outcome: a download link and no error, or
    an error message and no download link (a link left by an earlier
    submission is removed); so the error alert and the download block are
    never shown together. *)
Theorem submission_has_one_outcome
    (fetch : Fetch.Request -> Settled Fetch.Response)
    (createObjectURL : Blob -> string) (Number_parseInt : string -> float)
    (data : Form.Data) (st : Form.State) :
  Form.isLoading (onSubmit fetch createObjectURL Number_parseInt data st) = false
  /\ ((Form.error (onSubmit fetch createObjectURL Number_parseInt data st) = None
       /\ exists url,
            Form.downloadUrl (onSubmit fetch createObjectURL Number_parseInt data st)
            = Some url)
      \/ ((exists message,
              Form.error (onSubmit fetch createObjectURL Number_parseInt data st)
              = Some message)
          /\ Form.downloadUrl (onSubmit fetch createObjectURL Number_parseInt data st)
             = None
          /\ Form.resultsCount (onSubmit fetch createObjectURL Number_parseInt data st)
             = Form.resultsCount st))
  /\ (error_alert (onSubmit fetch createObjectURL Number_parseInt data st) = None
      \/ download_alert (onSubmit fetch createObjectURL Number_parseInt data st) = None).
Proof.
  unfold onSubmit, submitting, error_alert, download_alert.
  destruct (fetch (search_request data)) as [response | err]; cbn.
  - destruct (Fetch.ok response); cbn.
    + destruct (Fetch.blob response) as [blob | err]; cbn; eauto 10.
    + destruct (Fetch.json response) as [errorData | err]; cbn; eauto 10.
  - eauto 10.
Qed.

(** X16. When the server's response is not ok, the form shows the message
    of its JSON body when that is a non-empty string, and the fixed text
    when the body has no message or an empty one; no download link is set. *)
Theorem refused_submission_shows_message
    (fetch : Fetch.Request -> Settled Fetch.Response)
    (createObjectURL : Blob -> string) (Number_parseInt : string -> float)
    (data : Form.Data) (st : Form.State)
    (response : Fetch.Response) (errorData : JSON) :
  fetch (search_request data) = Resolved response ->
  Fetch.ok response = false ->
  Fetch.json response = Resolved errorData ->
  errorData <> JNull ->
  (forall message,
      get errorData "message" = Some (JString message) -> message <> "" ->
      Form.error (onSubmit fetch createObjectURL Number_parseInt data st)
      = Some message)
  /\ (truthy_opt (get errorData "message") = false ->
      Form.error (onSubmit fetch createObjectURL Number_parseInt data st)
      = Some "Ocorreu um erro ao buscar os estabelecimentos")
  /\ Form.downloadUrl (onSubmit fetch createObjectURL Number_parseInt data st) = None.
Proof.
  intros Hfetch Hok Hjson Hnull.
  unfold onSubmit, submitting. rewrite Hfetch, Hok. cbn [negb]. rewrite Hjson.
  cbn [Form.error Form.downloadUrl].
  assert (Hse : server_error errorData
                = match get errorData "message" with
                  | Some message =>
                      if truthy message then
                        match ToString message with
                        | Resolved text => Error text
                        | Rejected err => err
                        end
                      else Error submit_failed
                  | None => Error submit_failed
                  end).
  { destruct errorData; try reflexivity. contradiction. }
  rewrite Hse. split; [| split; [| reflexivity]].
  - intros message Hm Hne. rewrite Hm. cbn [truthy ToString].
    unfold truthy_string. destruct message; [contradiction | reflexivity].
  - intros Hf. destruct (get errorData "message") as [m |]; [| reflexivity].
    cbn in Hf. rewrite Hf. reflexivity.
Qed.

Lemma truthy_string_empty (s : string) : truthy_string s = false <-> s = "".
Proof.
  destruct s; cbn; split; intros H; (reflexivity || discriminate).
Qed.

Lemma truthy_text_empty (t : Text) :
  truthy (json_of_text t) = false <-> t = WellFormed "".
Proof.
  destruct t as [s | w]; cbn; split; intros H; try discriminate.
  - apply truthy_string_empty in H. rewrite H. reflexivity.
  - injection H as ->. reflexivity.
Qed.

Lemma ToString_text (t : Text) :
  ToString_opt (Some (json_of_text t)) = component_of_text t.
Proof. destruct t; reflexivity. Qed.

(** X17. When the body the form sends reaches the handler as it was
    written and the credential is configured, a submission with an empty
    field is answered InvalidInput before any call, and any other submission
    makes the handler run the aggregation with exactly the form's service
    type and location.  When that location can be escaped, the run starts
    with its geocoding; when it holds a lone surrogate, the handler calls
    nothing and answers 500 with the message of the escaping error. *)
Theorem form_fields_reach_aggregation {St : Type}
    (respond : forall e : Event, St -> Answer e * St) (st : St)
    (apiKey : string) (data : Form.Data) (request : NextRequest) :
  truthy_string apiKey = true ->
  json request = Resolved (Fetch.body (search_request data)) ->
  (Form.serviceType data = WellFormed "" \/ Form.location data = WellFormed "" ->
   run respond (POST (Some apiKey) request) st
   = {| trace := []; outcome := Returned invalid_input; final := st |})
  /\ (Form.serviceType data <> WellFormed "" ->
      Form.location data <> WellFormed "" ->
      (exists log,
         trace (run respond (POST (Some apiKey) request) st)
         = (trace (run respond
                     (getAllPlaces (component_of_text (Form.serviceType data))
                        (component_of_text (Form.location data)) apiKey) st)
            ++ log)%list
         /\ (log = [] \/ exists e, log = [ConsoleError handled_log e]))
      /\ (forall location,
            Form.location data = WellFormed location ->
            exists rest,
              trace (run respond (POST (Some apiKey) request) st)
              = GeocodeGet (geocode_url location apiKey) :: rest)
      /\ (forall wtf8,
            Form.location data = IllFormed wtf8 ->
            trace (run respond (POST (Some apiKey) request) st)
            = [ConsoleError handled_log URIError]
            /\ outcome (run respond (POST (Some apiKey) request) st)
               = Returned (NextResponse_json "URI malformed" 500))).
Proof.
  intros Hkey Hjson.
  destruct data as [s l]. cbn [Form.serviceType Form.location].
  destruct (POST_cases respond st (Some apiKey) request)
    as [[H _] | [[_ [e [[H | H] _]]] | [[_ [b [Hb [_ [Hf Hrun]]]]] | [_ [b [Hb H]]]]]].
  - cbn in H. rewrite Hkey in H. discriminate.
  - rewrite Hjson in H. discriminate.
  - rewrite Hjson in H. discriminate.
  - rewrite Hjson in Hb. injection Hb as <-.
    assert (Hf' : truthy (json_of_text s) = false
                  \/ truthy (json_of_text l) = false) by exact Hf.
    split; [intros _; exact Hrun |].
    intros Hne1 Hne2. destruct Hf' as [E | E]; apply truthy_text_empty in E;
      contradiction.
  - rewrite Hjson in Hb. injection Hb as <-.
    destruct H as [_ [Ht1 [Ht2 H]]].
    assert (Ht1' : truthy (json_of_text s) = true) by exact Ht1.
    assert (Ht2' : truthy (json_of_text l) = true) by exact Ht2.
    split.
    { intros [E | E]; apply truthy_text_empty in E;
        [rewrite E in Ht1' | rewrite E in Ht2']; discriminate. }
    intros _ _.
    assert (H' :
      (exists places,
          outcome (run respond
                     (getAllPlaces (ToString_opt (Some (json_of_text s)))
                        (ToString_opt (Some (json_of_text l))) apiKey) st)
          = Returned places
          /\ outcome (run respond (POST (Some apiKey) request) st)
             = Returned (if (List.length places =? 0)%nat
                         then no_results else success places)
          /\ trace (run respond (POST (Some apiKey) request) st)
             = trace (run respond
                        (getAllPlaces (ToString_opt (Some (json_of_text s)))
                           (ToString_opt (Some (json_of_text l))) apiKey) st))
      \/ (exists e,
             outcome (run respond
                        (getAllPlaces (ToString_opt (Some (json_of_text s)))
                           (ToString_opt (Some (json_of_text l))) apiKey) st)
             = Threw e
             /\ outcome (run respond (POST (Some apiKey) request) st)
                = Returned (NextResponse_json (errorMessage e) 500)
             /\ trace (run respond (POST (Some apiKey) request) st)
                = (trace (run respond
                            (getAllPlaces (ToString_opt (Some (json_of_text s)))
                               (ToString_opt (Some (json_of_text l))) apiKey) st)
                   ++ [ConsoleError handled_log e])%list)) by exact H.
    clear H. rewrite !ToString_text in H'.
    split; [| split].
    + destruct H' as [[places [_ [_ Ht]]] | [e [_ [_ Ht]]]].
      * exists []. rewrite app_nil_r. split; [exact Ht | left; reflexivity].
      * exists [ConsoleError handled_log e]. split; [exact Ht | right; eauto].
    + intros location ->. cbn [component_of_text] in H'.
      destruct (getAllPlaces_geocodes_first respond (component_of_text s)
                  location apiKey st) as [rest Hfirst].
      destruct H' as [[places [_ [_ Ht]]] | [e [_ [_ Ht]]]]; rewrite Ht, Hfirst.
      * eexists. reflexivity.
      * eexists. reflexivity.
    + intros wtf8 ->. cbn [component_of_text] in H'.
      rewrite getAllPlaces_unescapable in H'. cbn [outcome trace app] in H'.
      destruct H' as [[places [Ho _]] | [e [Ho [Hr Ht]]]]; [discriminate |].
      injection Ho as <-. split; [exact Ht | exact Hr].
Qed.

End Route.

(** ** The theorems at sample inputs *)

Example two_pages_run :
  outcome (exec two_pages (getAllPlaces decimal_zero "cafe" "Lisboa" "key"))
  = Returned (map (enriched two_pages "key") [cafe "a"; cafe "b"; cafe "c"; cafe "d"]).
Proof. vm_compute. reflexivity. Qed.

Example two_pages_trace :
  trace (exec two_pages (getAllPlaces decimal_zero "cafe" "Lisboa" "key"))
  = [ GeocodeGet (geocode_url "Lisboa" "key");
      NearbySearchGet (nearby_url decimal_zero 0 0 "cafe" "key");
      PlaceDetailsGet (details_url "a" "key");
      PlaceDetailsGet (details_url "b" "key");
      SetTimeout 2000;
      GeocodeGet (geocode_url "Lisboa" "key");
      NearbySearchGet (pagetoken_url "t2" "key");
      PlaceDetailsGet (details_url "c" "key");
      PlaceDetailsGet (details_url "d" "key") ].
Proof. vm_compute. reflexivity. Qed.

Example geocode_url_sample :
  geocode_url "São Paulo, SP" "key"
  = "https://maps.googleapis.com/maps/api/geocode/json?address=S%C3%A3o%20Paulo%2C%20SP&key=key".
Proof. vm_compute. reflexivity. Qed.

Example two_pages_response :
  outcome (exec two_pages
             (POST decimal_zero (Some "key") (request_of "cafe" "Lisboa")))
  = Returned
      (success (map (enriched two_pages "key") [cafe "a"; cafe "b"; cafe "c"; cafe "d"])).
Proof. vm_compute. reflexivity. Qed.

Example endless_three_searches :
  count is_nearbysearch
    (trace (exec endless (getAllPlaces decimal_zero "cafe" "Lisboa" "key"))) = 3.
Proof. vm_compute. reflexivity. Qed.

Example endless_unbounded_three_searches :
  count is_nearbysearch
    (trace (exec endless
              (getAllPlaces_loop decimal_zero 7 "cafe" "Lisboa" "key" [] None 0))) = 3
  /\ exists places,
       outcome (exec endless
                  (getAllPlaces_loop decimal_zero 7 "cafe" "Lisboa" "key" [] None 0))
       = Returned places
       /\ last_token [page_one; page_one; page_one] <> None.
Proof. vm_compute. split; [reflexivity |]. eexists. split; [reflexivity | discriminate]. Qed.

(** Witness of [no_fourth_page_request]: every page carries a token, and
    the loop is allowed seven turns. *)
Lemma no_fourth_page_request_witness :
  maxPages <= 7
  /\ count is_nearbysearch
       (trace (exec endless
                 (getAllPlaces_loop decimal_zero 7 "cafe" "Lisboa" "key" [] None 0)))
     <= 3
  /\ outcome (exec endless
                (getAllPlaces_loop decimal_zero 7 "cafe" "Lisboa" "key" [] None 0))
     <> Diverged
  /\ exec endless (getAllPlaces_loop decimal_zero 7 "cafe" "Lisboa" "key" [] None 0)
     = exec endless (getAllPlaces decimal_zero "cafe" "Lisboa" "key")
  /\ count is_nearbysearch
       (trace (exec endless
                 (POST decimal_zero (Some "key") (request_of "cafe" "Lisboa"))))
     <= 3.
Proof.
  assert (H : maxPages <= 7) by (unfold maxPages; lia).
  split; [exact H |].
  exact (@no_fourth_page_request decimal_zero unit (answer endless) tt 7
           "cafe" "Lisboa" "key" (Some "key") (request_of "cafe" "Lisboa") H).
Defined.

(** Witness of [pages_aggregated_in_order]: two pages of two records. *)
Lemma pages_aggregated_in_order_witness :
  exists places,
    outcome (exec two_pages (getAllPlaces decimal_zero "cafe" "Lisboa" "key"))
    = Returned places
    /\ List.length places = 2 * 2
    /\ map Place.item places = List.concat (map Search.results [page_one; page_two])
    /\ Forall (fun p =>
                 exists details,
                   details_api two_pages (details_url (Place.place_id p) "key")
                   = Resolved details
                   /\ p = Place.spread (Place.item p)
                            (or_opt_string (Details.website (Details.result details)) "")
                            (or_opt_string
                               (Details.formatted_phone_number (Details.result details)) "")
                            (or_string (Details.formatted_address (Details.result details))
                               (Place.vicinity p)))
         places
    /\ List.length (rows (generateExcel places)) = 2 * 2
    /\ map Row.name (rows (generateExcel places))
       = map (fun place => CellString (Search.name place))
           (List.concat (map Search.results [page_one; page_two])).
Proof.
  apply (@pages_aggregated_in_order decimal_zero two_pages "cafe" "Lisboa" "key"
           geocoded_origin
           {| Geocode.geometry :=
                {| Geocode.location := {| Geocode.lat := 0; Geocode.lng := 0 |} |} |}
           [page_one; page_two] 2 2).
  - reflexivity.
  - reflexivity.
  - reflexivity.
  - reflexivity.
  - unfold maxPages. lia.
  - split; [reflexivity |].
    exists "t2". split; [reflexivity |]. split; [reflexivity |].
    split; [reflexivity | exact I].
  - right. reflexivity.
  - repeat constructor.
  - repeat constructor; exists cafe_details; reflexivity.
Defined.

(** Witness of [detail_failure_keeps_record]: every detail lookup of the
    two-page search times out. *)
Lemma detail_failure_keeps_record_witness :
  exists places',
    outcome (exec (with_details two_pages timed_out)
               (getAllPlaces decimal_zero "cafe" "Lisboa" "key"))
    = Returned places'
    /\ map Place.item places'
       = map Place.item
           (map (enriched two_pages "key") [cafe "a"; cafe "b"; cafe "c"; cafe "d"])
    /\ forall i p e,
         nth_error places' i = Some p ->
         timed_out (details_url (Place.place_id p) "key") = Rejected e ->
         defaulted p.
Proof.
  apply (proj2 (detail_failure_keeps_record decimal_zero "key")
           two_pages timed_out "cafe" "Lisboa").
  vm_compute. reflexivity.
Defined.

(** Witness of [geocoding_in_every_page_fetch]: the two-page search, its
    loop allowed five turns. *)
Lemma geocoding_in_every_page_fetch_witness :
  maxPages <= 5
  /\ (forall pageToken,
        (trace (exec two_pages (searchPlaces decimal_zero "cafe" "Lisboa" "key" pageToken))
         = [GeocodeGet (geocode_url "Lisboa" "key")]
         /\ exists e,
              outcome (exec two_pages
                         (searchPlaces decimal_zero "cafe" "Lisboa" "key" pageToken))
              = Threw e)
        \/ exists lat lng keyword,
             Escapes "cafe" = Escapes keyword
             /\ trace (exec two_pages
                         (searchPlaces decimal_zero "cafe" "Lisboa" "key" pageToken))
                = [GeocodeGet (geocode_url "Lisboa" "key");
                   NearbySearchGet (search_url decimal_zero lat lng keyword "key"
                                      pageToken)])
  /\ (forall lat lng keyword token,
        truthy_string token = true ->
        search_url decimal_zero lat lng keyword "key" (Some token)
        = pagetoken_url token "key")
  /\ (forall (u : Upstream) pageToken,
        (forall e,
            geocode_api u (geocode_url "Lisboa" "key") = Rejected e ->
            outcome (exec u (searchPlaces decimal_zero "cafe" "Lisboa" "key" pageToken))
            = Threw e)
        /\ (forall geo,
              geocode_api u (geocode_url "Lisboa" "key") = Resolved geo ->
              geocode_rejected geo = true ->
              outcome (exec u (searchPlaces decimal_zero "cafe" "Lisboa" "key" pageToken))
              = Threw location_not_found))
  /\ 1 <= count is_geocode
            (trace (exec two_pages
                      (getAllPlaces_loop decimal_zero 5 "cafe" "Lisboa" "key" [] None 0)))
       <= maxPages
  /\ exec two_pages (getAllPlaces_loop decimal_zero 5 "cafe" "Lisboa" "key" [] None 0)
     = exec two_pages (getAllPlaces decimal_zero "cafe" "Lisboa" "key")
  /\ geocoded_per_search (exec two_pages (getAllPlaces decimal_zero "cafe" "Lisboa" "key"))
  /\ (forall e pageToken,
        exec two_pages (searchPlaces decimal_zero "cafe" (Throws e) "key" pageToken)
        = {| trace := []; outcome := Threw e; final := tt |})
  /\ (forall e,
        exec two_pages (getAllPlaces decimal_zero "cafe" (Throws e) "key")
        = {| trace := []; outcome := Threw e; final := tt |}).
Proof.
  assert (H : maxPages <= 5) by (unfold maxPages; lia).
  split; [exact H |].
  exact (@geocoding_in_every_page_fetch decimal_zero unit (answer two_pages) tt 5
           "cafe" "Lisboa" "key" H).
Defined.

(** Counterexample to C2 as stated: the two-page search geocodes twice, and
    a fetch by token fails on a location the geocoder does not know. *)
Lemma geocoding_repeated_per_page :
  count is_geocode
    (trace (exec two_pages (getAllPlaces decimal_zero "cafe" "Lisboa" "key"))) = 2
  /\ outcome (exec two_pages (searchPlaces decimal_zero "cafe" "Lisboa" "key" (Some "t2")))
     = Returned page_two
  /\ outcome (exec unknown_location
                (searchPlaces decimal_zero "cafe" "Atlantis" "key" (Some "t2")))
     = Threw location_not_found.
Proof. vm_compute. repeat split. Qed.

(** Witness of [missing_credential_is_misconfigured]. *)
Lemma missing_credential_is_misconfigured_witness :
  run (answer two_pages) (POST decimal_zero None (request_of "cafe" "Lisboa")) tt
  = {| trace := []; outcome := Returned misconfigured; final := tt |}
  /\ response_status misconfigured = 500%Z.
Proof.
  apply (missing_credential_is_misconfigured decimal_zero (answer two_pages) tt
           None (request_of "cafe" "Lisboa")).
  reflexivity.
Defined.

(** Witness of [empty_field_is_invalid_input]: an empty service type. *)
Lemma empty_field_is_invalid_input_witness :
  run (answer two_pages) (POST decimal_zero (Some "key") (request_of "" "Lisboa")) tt
  = {| trace := []; outcome := Returned invalid_input; final := tt |}
  /\ response_status invalid_input = 400%Z.
Proof.
  apply (@empty_field_is_invalid_input decimal_zero unit (answer two_pages) tt
           (Some "key") (request_of "" "Lisboa")
           (JObject [("serviceType", JString ""); ("location", JString "Lisboa")])).
  - reflexivity.
  - reflexivity.
  - discriminate.
  - left. reflexivity.
Defined.

(** Counterexample to C5 as stated: without credential an empty service
    type is answered 500, and so is a [null] body with the credential. *)
Lemma empty_field_not_always_400 :
  outcome (exec two_pages (POST decimal_zero None (request_of "" "Lisboa")))
  = Returned misconfigured
  /\ response_status misconfigured = 500%Z
  /\ exists message,
       outcome (exec two_pages
                  (POST decimal_zero (Some "key") {| json := Resolved JNull |}))
       = Returned (NextResponse_json message 500).
Proof.
  split; [reflexivity |]. split; [reflexivity |]. eexists. vm_compute. reflexivity.
Qed.

(** Witness of [unparseable_body_is_500]. *)
Lemma unparseable_body_is_500_witness :
  exists message,
    outcome (run (answer two_pages)
               (POST decimal_zero (Some "key")
                  {| json := Rejected (Error "Unexpected end of JSON input") |}) tt)
      = Returned (NextResponse_json message 500)
    /\ response_status (NextResponse_json message 500) = 500%Z
    /\ NextResponse_json message 500 <> invalid_input
    /\ count is_network
         (trace (run (answer two_pages)
                   (POST decimal_zero (Some "key")
                      {| json := Rejected (Error "Unexpected end of JSON input") |}) tt))
       = 0
    /\ (truthy_opt_string (Some "key") = true ->
        message = errorMessage (Error "Unexpected end of JSON input"))
    /\ (truthy_opt_string (Some "key") = false ->
        NextResponse_json message 500 = misconfigured).
Proof.
  apply (@unparseable_body_is_500 decimal_zero unit (answer two_pages) tt (Some "key")
           {| json := Rejected (Error "Unexpected end of JSON input") |}
           (Error "Unexpected end of JSON input")).
  reflexivity.
Defined.

(** Witness of [zero_records_is_no_results]: a search without records. *)
Lemma zero_records_is_no_results_witness :
  outcome (run (answer nothing_found)
             (POST decimal_zero (Some "key") (request_of "cafe" "Lisboa")) tt)
  = Returned no_results
  /\ response_status no_results = 404%Z
  /\ (forall found, no_results <> success found)
  /\ (forall r, response_status r = 200%Z \/ response_status r = 500%Z ->
                no_results <> r).
Proof.
  apply (@zero_records_is_no_results decimal_zero unit (answer nothing_found) tt
           (Some "key") (request_of "cafe" "Lisboa")
           (JObject [("serviceType", JString "cafe"); ("location", JString "Lisboa")])
           []).
  - reflexivity.
  - reflexivity.
  - discriminate.
  - reflexivity.
  - reflexivity.
  - vm_compute. reflexivity.
  - reflexivity.
Defined.

(** Witness of [absent_rating_is_NA]. *)
Lemma absent_rating_is_NA_witness :
  exists row,
    nth_error (rows (generateExcel [tagged ["cafe"]])) 0 = Some row
    /\ (Place.rating (tagged ["cafe"]) = None ->
        Row.rating row = CellString "N/A"
        /\ Row.rating row <> CellNumber 0
        /\ Row.rating row <> CellString ""
        /\ Row.rating row <> CellUndefined)
    /\ (Place.user_ratings_total (tagged ["cafe"]) = None ->
        Row.ratings_count row = CellNumber 0).
Proof.
  apply (absent_rating_is_NA [tagged ["cafe"]] 0 (place := tagged ["cafe"])).
  reflexivity.
Defined.


Example business_type_cell_sample :
  Row.business_type
    (addRow (tagged ["night_club"; "bar"; "point_of_interest"; "establishment"]))
  = CellString "night club, bar".
Proof. reflexivity. Qed.


(** ** The further properties at sample inputs *)

(** Witness of [spreadsheet_response_counts_rows]: the two-page search. *)
Lemma spreadsheet_response_counts_rows_witness :
  200%Z = 200%Z
  /\ rows (generateExcel two_pages_places) <> []
  /\ In ("X-Results-Count",
         length_toString (List.length (rows (generateExcel two_pages_places))))
       [ ("Content-Type",
          "application/vnd.openxmlformats-officedocument.spreadsheetml.sheet");
         ("Content-Disposition", "attachment; filename=estabelecimentos.xlsx");
         ("X-Results-Count", "4") ]
  /\ exists parsed places,
       json (request_of "cafe" "Lisboa") = Resolved parsed
       /\ outcome (run (answer two_pages) (aggregation decimal_zero parsed (Some "key")) tt)
          = Returned places
       /\ generateExcel two_pages_places = generateExcel places
       /\ trace (run (answer two_pages)
                   (POST decimal_zero (Some "key") (request_of "cafe" "Lisboa")) tt)
          = trace (run (answer two_pages)
                     (aggregation decimal_zero parsed (Some "key")) tt).
Proof.
  apply (@spreadsheet_response_counts_rows decimal_zero unit (answer two_pages) tt
           (Some "key") (request_of "cafe" "Lisboa")).
  vm_compute. reflexivity.
Defined.

(** Witness of [status_400_only_for_empty_field]: an empty location. *)
Lemma status_400_only_for_empty_field_witness :
  invalid_input = invalid_input
  /\ trace (run (answer two_pages)
              (POST decimal_zero (Some "key") (request_of "cafe" "")) tt) = []
  /\ truthy_opt_string (Some "key") = true
  /\ exists body,
       json (request_of "cafe" "") = Resolved body /\ body <> JNull
       /\ (truthy_opt (get body "serviceType") = false
           \/ truthy_opt (get body "location") = false).
Proof.
  apply (@status_400_only_for_empty_field decimal_zero unit (answer two_pages) tt
           (Some "key") (request_of "cafe" "") invalid_input).
  - reflexivity.
  - reflexivity.
Defined.

(** Witness of [status_404_only_for_empty_result]. *)
Lemma status_404_only_for_empty_result_witness :
  no_results = no_results
  /\ exists body,
       json (request_of "cafe" "Lisboa") = Resolved body
       /\ outcome (run (answer nothing_found)
                     (aggregation decimal_zero body (Some "key")) tt) = Returned [].
Proof.
  apply (@status_404_only_for_empty_result decimal_zero unit (answer nothing_found) tt
           (Some "key") (request_of "cafe" "Lisboa") no_results).
  - vm_compute. reflexivity.
  - reflexivity.
Defined.

(** Witness of [handler_follows_aggregation]: the quota error is logged and
    answered with status 500. *)
Lemma handler_follows_aggregation_witness :
  (exists places,
      outcome (run (answer over_quota)
                 (aggregation decimal_zero
                    (JObject [("serviceType", JString "cafe");
                              ("location", JString "Lisboa")]) (Some "key")) tt)
      = Returned places
      /\ outcome (run (answer over_quota)
                    (POST decimal_zero (Some "key") (request_of "cafe" "Lisboa")) tt)
         = Returned (match places with [] => no_results | _ => success places end)
      /\ trace (run (answer over_quota)
                  (POST decimal_zero (Some "key") (request_of "cafe" "Lisboa")) tt)
         = trace (run (answer over_quota)
                    (aggregation decimal_zero
                       (JObject [("serviceType", JString "cafe");
                                 ("location", JString "Lisboa")]) (Some "key")) tt))
  \/ (exists e,
        outcome (run (answer over_quota)
                   (aggregation decimal_zero
                      (JObject [("serviceType", JString "cafe");
                                ("location", JString "Lisboa")]) (Some "key")) tt)
        = Threw e
        /\ outcome (run (answer over_quota)
                      (POST decimal_zero (Some "key") (request_of "cafe" "Lisboa")) tt)
           = Returned (NextResponse_json (errorMessage e) 500)
        /\ trace (run (answer over_quota)
                    (POST decimal_zero (Some "key") (request_of "cafe" "Lisboa")) tt)
           = (trace (run (answer over_quota)
                       (aggregation decimal_zero
                          (JObject [("serviceType", JString "cafe");
                                    ("location", JString "Lisboa")]) (Some "key")) tt)
              ++ [ConsoleError handled_log e])%list).
Proof.
  apply (@handler_follows_aggregation decimal_zero unit (answer over_quota) tt
           (Some "key") (request_of "cafe" "Lisboa")
           (JObject [("serviceType", JString "cafe"); ("location", JString "Lisboa")])).
  - reflexivity.
  - reflexivity.
  - discriminate.
  - reflexivity.
  - reflexivity.
Defined.

Example over_quota_response :
  run (answer over_quota) (POST decimal_zero (Some "key") (request_of "cafe" "Lisboa")) tt
  = {| trace :=
         [ GeocodeGet (geocode_url "Lisboa" "key");
           NearbySearchGet (nearby_url decimal_zero 0 0 "cafe" "key");
           ConsoleError handled_log
             (Error "Erro na API do Google Places: OVER_QUERY_LIMIT") ];
       outcome :=
         Returned (NextResponse_json "Erro na API do Google Places: OVER_QUERY_LIMIT" 500);
       final := tt |}.
Proof. vm_compute. reflexivity. Qed.

(** Witness of [one_detail_lookup_per_place]: the two-page search. *)
Lemma one_detail_lookup_per_place_witness :
  filter is_details
    (trace (run (answer two_pages) (getAllPlaces decimal_zero "cafe" "Lisboa" "key") tt))
  = map (fun p => PlaceDetailsGet (details_url (Place.place_id p) "key")) two_pages_places
  /\ count is_details
       (trace (run (answer two_pages)
                 (getAllPlaces decimal_zero "cafe" "Lisboa" "key") tt))
     = List.length two_pages_places.
Proof.
  apply (@one_detail_lookup_per_place decimal_zero unit (answer two_pages) tt
           "cafe" "Lisboa" "key" two_pages_places).
  vm_compute. reflexivity.
Defined.

(** Witness of [unknown_location_stops_at_geocoding]. *)
Lemma unknown_location_stops_at_geocoding_witness :
  run (answer unknown_location) (getAllPlaces decimal_zero "cafe" "Atlantis" "key") tt
  = {| trace := [GeocodeGet (geocode_url "Atlantis" "key")];
       outcome := Threw location_not_found;
       final := tt |}.
Proof.
  apply (@unknown_location_stops_at_geocoding decimal_zero unit
           (answer unknown_location) tt tt "cafe" "Atlantis" "key"
           (Resolved {| Geocode.status := "ZERO_RESULTS"; Geocode.results := [] |})).
  - reflexivity.
  - intros geo H. injection H as <-. reflexivity.
Defined.

(** Witness of [failed_page_aborts_search]: the first page is refused. *)
Lemma failed_page_aborts_search_witness :
  outcome (exec over_quota (getAllPlaces decimal_zero "cafe" "Lisboa" "key"))
  = Threw (Error ("Erro na API do Google Places: " ++ Search.status quota_page))
  /\ outcome (exec over_quota
                (POST decimal_zero (Some "key") (request_of "cafe" "Lisboa")))
     = Returned (NextResponse_json
                   ("Erro na API do Google Places: " ++ Search.status quota_page) 500).
Proof.
  apply (@failed_page_aborts_search decimal_zero over_quota "cafe" "Lisboa" "key"
           geocoded_origin
           {| Geocode.geometry :=
                {| Geocode.location := {| Geocode.lat := 0; Geocode.lng := 0 |} |} |}
           [] quota_page).
  - reflexivity.
  - reflexivity.
  - reflexivity.
  - split; [reflexivity | exact I].
  - constructor.
  - discriminate.
  - unfold maxPages. cbn. lia.
  - reflexivity.
  - reflexivity.
  - reflexivity.
Defined.


(** Witness of [urls_determine_their_text]. *)
Lemma urls_determine_their_text_witness : "Lisboa" = "Lisboa".
Proof.
  apply (proj1 (urls_determine_their_text decimal_zero "key")).
  reflexivity.
Defined.

(** Witness of [refused_submission_shows_message]: the handler's NoResults
    message is shown by the form. *)
Lemma refused_submission_shows_message_witness :
  (forall message,
      get (JObject [("message", JString "Nenhum estabelecimento encontrado")]) "message"
      = Some (JString message) -> message <> "" ->
      Form.error (onSubmit decimal_zero (refusing "Nenhum estabelecimento encontrado")
                    (fun blob => "blob:1") (fun _ => 0%float) cafe_query idle)
      = Some message)
  /\ (truthy_opt
        (get (JObject [("message", JString "Nenhum estabelecimento encontrado")])
           "message") = false ->
      Form.error (onSubmit decimal_zero (refusing "Nenhum estabelecimento encontrado")
                    (fun blob => "blob:1") (fun _ => 0%float) cafe_query idle)
      = Some "Ocorreu um erro ao buscar os estabelecimentos")
  /\ Form.downloadUrl
       (onSubmit decimal_zero (refusing "Nenhum estabelecimento encontrado")
          (fun blob => "blob:1") (fun _ => 0%float) cafe_query idle) = None.
Proof.
  apply (@refused_submission_shows_message decimal_zero
           (refusing "Nenhum estabelecimento encontrado")
           (fun blob => "blob:1") (fun _ => 0%float) cafe_query idle
           {| Fetch.ok := false;
              Fetch.json :=
                Resolved (JObject [("message",
                                    JString "Nenhum estabelecimento encontrado")]);
              Fetch.blob := Resolved "";
              Fetch.headers_get := fun _ => None |}).
  - reflexivity.
  - reflexivity.
  - reflexivity.
  - discriminate.
Defined.

Example refused_submission_sample :
  onSubmit decimal_zero (refusing "Nenhum estabelecimento encontrado")
    (fun blob => "blob:1") (fun _ => 0%float) cafe_query idle
  = {| Form.isLoading := false;
       Form.error := Some "Nenhum estabelecimento encontrado";
       Form.downloadUrl := None;
       Form.resultsCount := None |}.
Proof. reflexivity. Qed.

(** Witness of [form_fields_reach_aggregation]: a query that is geocoded,
    and one whose location cannot be escaped. *)
Lemma form_fields_reach_aggregation_witness :
  (exists rest,
      trace (exec two_pages
               (POST decimal_zero (Some "key") (request_of "cafe" "Lisboa")))
      = GeocodeGet (geocode_url "Lisboa" "key") :: rest)
  /\ trace (exec two_pages (POST decimal_zero (Some "key") surrogate_request))
     = [ConsoleError handled_log URIError]
  /\ outcome (exec two_pages (POST decimal_zero (Some "key") surrogate_request))
     = Returned (NextResponse_json "URI malformed" 500).
Proof.
  split.
  - destruct (@form_fields_reach_aggregation decimal_zero unit (answer two_pages) tt
                "key" cafe_query (request_of "cafe" "Lisboa") eq_refl eq_refl)
      as [_ H].
    assert (H1 : Form.serviceType cafe_query <> WellFormed "") by discriminate.
    assert (H2 : Form.location cafe_query <> WellFormed "") by discriminate.
    destruct (H H1 H2) as [_ [Hgeo _]].
    exact (Hgeo "Lisboa" eq_refl).
  - destruct (@form_fields_reach_aggregation decimal_zero unit (answer two_pages) tt
                "key" surrogate_query surrogate_request eq_refl eq_refl)
      as [_ H].
    assert (H1 : Form.serviceType surrogate_query <> WellFormed "") by discriminate.
    assert (H2 : Form.location surrogate_query <> WellFormed "") by discriminate.
    destruct (H H1 H2) as [_ [_ Hill]].
    exact (Hill lone_surrogate eq_refl).
Defined.

(** The handler on values that cannot be escaped: a lone surrogate as
    location is answered 500 without any call; as service type, after the
    geocoding call; an object with an own [toString] property is answered
    500 with the coercion's error, without any call. *)
Example unescapable_fields_are_500 :
  exec two_pages (POST decimal_zero (Some "key") surrogate_request)
  = {| trace := [ConsoleError handled_log URIError];
       outcome := Returned (NextResponse_json "URI malformed" 500);
       final := tt |}
  /\ exec two_pages (POST decimal_zero (Some "key") surrogate_keyword_request)
     = {| trace := [GeocodeGet (geocode_url "Lisboa" "key");
                    ConsoleError handled_log URIError];
          outcome := Returned (NextResponse_json "URI malformed" 500);
          final := tt |}
  /\ exec two_pages (POST decimal_zero (Some "key") unprintable_request)
     = {| trace := [ConsoleError handled_log TypeError_primitive];
          outcome := Returned (NextResponse_json
                                 "Cannot convert object to primitive value" 500);
          final := tt |}.
Proof. vm_compute. repeat split. Qed.
